(** * NormalNN: the continual-learning training agent of [agents/default.py]

    A shallow embedding of the agent's orchestration logic: the multi-head
    loss aggregation of [criterion], the [valid_out_dim] state machine of
    [add_valid_output_dim], the metric accumulation helpers, and the
    [learn_batch] / [validation] loops.

    Tensor scalars are rationals with exact arithmetic; the rounding of
    floating-point operations is not part of the model.  The network, the
    optimizer, the loss modules and the metric functions are collaborators
    of the agent and appear as the fields of the class [Torch]. *)

From Stdlib Require Import ZArith QArith List String Bool Lia Permutation.
From Stdlib Require Import Lqa Setoid Morphisms Sorted.
Import ListNotations.

Local Open Scope string_scope.
Local Open Scope list_scope.
Local Open Scope Z_scope.

(** ** Python values and exceptions *)

Inductive exn : Type :=
| AssertionError (msg : string)
| AttributeError
| IndexError
| KeyError
| NameError
| TypeError
| ValueError
| ZeroDivisionError.

(** The outcome of evaluating a Python expression: a value or a raised
    exception. *)
Inductive res (A : Type) : Type :=
| Ok (a : A)
| Raise (e : exn).
Arguments Ok {A} a.
Arguments Raise {A} e.

Definition res_bind {A B} (r : res A) (k : A -> res B) : res B :=
  match r with
  | Ok a => k a
  | Raise e => Raise e
  end.

Declare Scope res_scope.
Delimit Scope res_scope with res.
Notation "x <- r ;; k" := (res_bind r (fun x => k))
  (at level 100, r at next level, right associativity) : res_scope.

(** [seq[i]] for a list and a non-negative index. *)
Definition getitem {A} (l : list A) (i : nat) : res A :=
  match nth_error l i with
  | Some a => Ok a
  | None => Raise IndexError
  end.

(** [seq[-1]]. *)
Definition getitem_last {A} (l : list A) : res A :=
  match rev l with
  | a :: _ => Ok a
  | [] => Raise IndexError
  end.

(** [tensor[inds]] for a list of indices (also [list] of rows): the rows at
    the given positions, in that order. *)
Fixpoint index_select {A} (l : list A) (inds : list nat) : res (list A) :=
  match inds with
  | [] => Ok []
  | i :: inds' =>
      (a <- getitem l i ;;
       rest <- index_select l inds' ;;
       Ok (a :: rest))%res
  end.

(** [range(n)] for a Python integer. *)
Definition py_range (n : Z) : list Z :=
  map Z.of_nat (seq 0 (Z.to_nat n)).

(** [row[:k]]: a non-negative bound keeps the first [k] entries, a negative
    one drops the last [-k]. *)
Definition slice_upto {A} (k : Z) (row : list A) : list A :=
  if 0 <=? k then firstn (Z.to_nat k) row
  else firstn (Z.to_nat (Z.of_nat (List.length row) + k)) row.

(** [d[key]] and [key in d] on an insertion-ordered dict with string keys. *)
Fixpoint dict_get {V} (d : list (string * V)) (key : string) : res V :=
  match d with
  | [] => Raise KeyError
  | (k, v) :: d' => if String.eqb k key then Ok v else dict_get d' key
  end.

Definition dict_has {V} (d : list (string * V)) (key : string) : bool :=
  existsb (fun kv => String.eqb (fst kv) key) d.

(** ** Tensors and model outputs *)

Definition Row := list Q.
Definition Tensor := list Row.
Definition Targets := list Q.
Definition TaskLabels := list string.

(** What [forward] (or a caller of [criterion]) hands over as predictions:
    a plain dict from task name to tensor, a transformers
    [SequenceClassifierOutput] (a [ModelOutput]: a dict of named fields
    whose integer and slice subscripts go through [to_tuple]), or a tuple
    of tensors. *)
Inductive Preds : Type :=
| PDict (items : list (string * Tensor))
| PModelOutput (fields : list (string * Tensor))
| PTuple (elems : list Tensor).

(** [preds.items()] *)
Definition preds_items (p : Preds) : res (list (string * Tensor)) :=
  match p with
  | PDict items => Ok items
  | PModelOutput fields => Ok fields
  | PTuple _ => Raise AttributeError
  end.

(** ['All' in preds]; a tuple of tensors holds no string. *)
Definition preds_contains (p : Preds) (key : string) : bool :=
  match p with
  | PDict items => dict_has items key
  | PModelOutput fields => dict_has fields key
  | PTuple _ => false
  end.

(** [preds[key]] for a string key. *)
Definition preds_get (p : Preds) (key : string) : res Tensor :=
  match p with
  | PDict items => dict_get items key
  | PModelOutput fields => dict_get fields key
  | PTuple _ => Raise IndexError
  end.

(** [preds[i]] for an integer subscript: a dict keyed by task names has no
    such key, a [ModelOutput] answers from [to_tuple()]. *)
Definition preds_index (p : Preds) (i : nat) : res Tensor :=
  match p with
  | PDict _ => Raise KeyError
  | PModelOutput fields => getitem (map snd fields) i
  | PTuple elems => getitem elems i
  end.

(** [tasks[i]==t] for a position of the batch. *)
Definition label_at (tasks : TaskLabels) (t : string) (i : nat) : bool :=
  match nth_error tasks i with
  | Some x => String.eqb x t
  | None => false
  end.

(** [[i for i in range(len(tasks)) if tasks[i]==t]] *)
Definition task_inds (tasks : TaskLabels) (t : string) : list nat :=
  filter (label_at tasks t) (seq 0 (List.length tasks)).

(** [len(x)] as a scalar. *)
Definition Qlen {A} (l : list A) : Q := inject_Z (Z.of_nat (List.length l)).

(** ** The configured loss and the incremental-class state *)

Inductive LossFn : Type := CrossEntropyLoss | MSELoss.

Inductive ValidOutDim : Type :=
| ALL
| Dim (n : Z).

(** ** Metric Accumulator *)

Module AverageMeter.

(** Modelled from the spec: the class [AverageMeter] of [utils/metric.py]
    is not among the sources.  [update(value, weight)] adds
    [value*weight] to an internal sum and [weight] to an internal count;
    [avg] is [sum/count] and fails when the count is 0.  [val] is the
    value of the last update, which the progress line prints. *)
Record t : Type := mk { val : Q; sum : Q; count : Q }.

Definition reset : t := mk 0%Q 0%Q 0%Q.

Definition update (m : t) (value weight : Q) : t :=
  mk value (sum m + value * weight)%Q (count m + weight)%Q.

Definition avg (m : t) : res Q :=
  if Qeq_bool (count m) 0%Q then Raise ZeroDivisionError
  else Ok (sum m / count m)%Q.

(** One [update] call per pair, in list order. *)
Definition updates (m : t) (l : list (Q * Q)) : t :=
  fold_left (fun m vw => update m (fst vw) (snd vw)) l m.

(** The sum of the weights, and of value times weight, over a list of
    (value, weight) pairs. *)
Definition total_weight (l : list (Q * Q)) : Q :=
  fold_right (fun vw acc => (snd vw + acc)%Q) 0%Q l.

Definition weighted_total (l : list (Q * Q)) : Q :=
  fold_right (fun vw acc => (fst vw * snd vw + acc)%Q) 0%Q l.

End AverageMeter.

(** ** Collaborators *)

(** A batch input as the data loader yields it, or as the loops repackage
    it: one tensor, a list of tensors (token ids, attention mask, segment
    ids), or the dict of named fields built from such a list. *)
Inductive Input (X : Type) : Type :=
| InTensor (x : X)
| InList (xs : list X)
| InDict (input_ids attention_mask token_type_ids : X) (labels : Targets).
Arguments InTensor {X} x.
Arguments InList {X} xs.
Arguments InDict {X} input_ids attention_mask token_type_ids labels.

(** [agent_config] *)
Record Config : Type := {
  lr : Q;
  momentum : Q;
  weight_decay : Q;
  schedule : list Z;
  model_type : string;
  model_name : string;
  out_dim : list (string * Z);
  model_weights : option string;
  print_freq : Z;
  gpuid : list Z;
  optimizer_name : string
}.

Definition set_optimizer_name (c : Config) (name : string) : Config :=
  {| lr := lr c; momentum := momentum c; weight_decay := weight_decay c;
     schedule := schedule c; model_type := model_type c;
     model_name := model_name c; out_dim := out_dim c;
     model_weights := model_weights c; print_freq := print_freq c;
     gpuid := gpuid c; optimizer_name := name |}.

(** The keyword arguments [init_optimizer] collects (without ['params']). *)
Record OptimizerArg : Type := {
  arg_lr : Q;
  arg_weight_decay : option Q;
  arg_momentum : option Q;
  arg_amsgrad : bool
}.

(** A loss as [criterion] returns it: the Python number it starts from, or
    a zero-dimensional tensor once a base loss has been added. *)
Inductive Scalar : Type :=
| PyNum (q : Q)
| TScalar (q : Q).

Definition scalar_value (s : Scalar) : Q :=
  match s with
  | PyNum q => q
  | TScalar q => q
  end.

(** What the agent calls and does not define: the network behind
    [self.model], torch's optimizers, scheduler and loss modules, the
    metric functions of [utils/metric.py], and transformers'
    [glue_output_modes] table. *)
Class Torch : Type := {
  XTensor : Type;
  (** [x.size(0)] *)
  size0 : XTensor -> Z;
  (** [self.model], weights included *)
  Net : Type;
  (** [self.optimizer] together with [self.scheduler] *)
  Optim : Type;
  create_model : Config -> res Net;
  (** the forward pass, in training or evaluation mode *)
  net_forward : Net -> bool -> Input XTensor -> res Preds;
  (** the optimizer class of that name in [torch.optim], built from the
      keyword arguments, and the [MultiStepLR] over its milestones *)
  new_optimizer : string -> OptimizerArg -> list Z -> Net -> res Optim;
  (** [scheduler.step(epoch)] *)
  scheduler_step : Optim -> Z -> Optim;
  (** [zero_grad(); loss.backward(); step()] for a loss given as a function
      of the network *)
  optimizer_update : Optim -> Net -> (Net -> res Scalar) -> Optim * Net;
  (** [self.criterion_fn(pred, target)] *)
  loss_call : LossFn -> Tensor -> Targets -> Q;
  accuracy : Tensor -> Targets -> Q;
  matthews : Tensor -> Targets -> Q;
  pearson_and_spearman : Tensor -> Targets -> Q;
  output_modes : list (string * string)
}.

(** ** Metric accumulation helpers *)

Section Accumulate.

Variable metric : Tensor -> Targets -> Q.

(** The body of the loop over [output.items()] in the multi-head branch. *)
Definition accumulate_task (target : Targets) (task : TaskLabels)
    (meter : AverageMeter.t) (kv : string * Tensor) : res AverageMeter.t :=
  let '(t, t_out) := kv in
  let inds := task_inds task t in
  if (0 <? List.length inds)%nat then
    (t_out' <- index_select t_out inds ;;
     t_target <- index_select target inds ;;
     Ok (AverageMeter.update meter (metric t_out' t_target) (Qlen inds)))%res
  else Ok meter.

Fixpoint accumulate_tasks (target : Targets) (task : TaskLabels)
    (meter : AverageMeter.t) (items : list (string * Tensor))
    : res AverageMeter.t :=
  match items with
  | [] => Ok meter
  | kv :: items' =>
      (meter' <- accumulate_task target task meter kv ;;
       accumulate_tasks target task meter' items')%res
  end.

(** The common shape of [accumulate_acc], [accumulate_mcc] and
    [accumulate_corr]. *)
Definition accumulate (output : Preds) (target : Targets) (task : TaskLabels)
    (meter : AverageMeter.t) : res AverageMeter.t :=
  match output with
  | PModelOutput fields =>
      (* tmp_eval_loss, logits = output[:2] *)
      match firstn 2 (map snd fields) with
      | [_; logits] =>
          Ok (AverageMeter.update meter (metric logits target) (Qlen target))
      | _ => Raise ValueError
      end
  | PDict items =>
      if dict_has items "All" then
        (out_all <- dict_get items "All" ;;
         Ok (AverageMeter.update meter (metric out_all target) (Qlen target)))%res
      else accumulate_tasks target task meter items
  | PTuple _ => Raise AttributeError
  end.

End Accumulate.

Section Agent.

Context {T : Torch}.

Definition accumulate_acc := accumulate accuracy.
Definition accumulate_mcc := accumulate matthews.
Definition accumulate_corr := accumulate pearson_and_spearman.

(** ** The agent *)

(** Calls the agent makes on its collaborators and on itself, in the order
    made (ghost state, for counting). *)
Inductive Event : Type :=
| EvInitOptimizer
| EvEpoch (epoch : Z)
| EvModelTrain
| EvSchedulerStep (epoch : Z)
| EvOptimizerStep
| EvValidation (val_name : string).

Record NormalNN : Type := {
  config : Config;
  args_output_mode : string;
  multihead : bool;
  model : Net;
  (** [self.training] and [self.model.training] *)
  training : bool;
  model_training : bool;
  gpu : bool;
  optimizer : Optim;
  reset_optimizer : bool;
  (** [None]: the attribute has not been assigned yet *)
  criterion_fn : option LossFn;
  valid_out_dim : ValidOutDim;
  calls : list Event
}.

Definition set_config (s : NormalNN) (c : Config) : NormalNN :=
  {| config := c; args_output_mode := args_output_mode s;
     multihead := multihead s; model := model s; training := training s;
     model_training := model_training s; gpu := gpu s;
     optimizer := optimizer s; reset_optimizer := reset_optimizer s;
     criterion_fn := criterion_fn s; valid_out_dim := valid_out_dim s;
     calls := calls s |}.

Definition set_model (s : NormalNN) (n : Net) : NormalNN :=
  {| config := config s; args_output_mode := args_output_mode s;
     multihead := multihead s; model := n; training := training s;
     model_training := model_training s; gpu := gpu s;
     optimizer := optimizer s; reset_optimizer := reset_optimizer s;
     criterion_fn := criterion_fn s; valid_out_dim := valid_out_dim s;
     calls := calls s |}.

Definition set_training (s : NormalNN) (b : bool) : NormalNN :=
  {| config := config s; args_output_mode := args_output_mode s;
     multihead := multihead s; model := model s; training := b;
     model_training := model_training s; gpu := gpu s;
     optimizer := optimizer s; reset_optimizer := reset_optimizer s;
     criterion_fn := criterion_fn s; valid_out_dim := valid_out_dim s;
     calls := calls s |}.

Definition set_model_training (s : NormalNN) (b : bool) : NormalNN :=
  {| config := config s; args_output_mode := args_output_mode s;
     multihead := multihead s; model := model s; training := training s;
     model_training := b; gpu := gpu s;
     optimizer := optimizer s; reset_optimizer := reset_optimizer s;
     criterion_fn := criterion_fn s; valid_out_dim := valid_out_dim s;
     calls := calls s |}.

Definition set_optimizer (s : NormalNN) (o : Optim) : NormalNN :=
  {| config := config s; args_output_mode := args_output_mode s;
     multihead := multihead s; model := model s; training := training s;
     model_training := model_training s; gpu := gpu s;
     optimizer := o; reset_optimizer := reset_optimizer s;
     criterion_fn := criterion_fn s; valid_out_dim := valid_out_dim s;
     calls := calls s |}.

Definition set_criterion_fn (s : NormalNN) (f : LossFn) : NormalNN :=
  {| config := config s; args_output_mode := args_output_mode s;
     multihead := multihead s; model := model s; training := training s;
     model_training := model_training s; gpu := gpu s;
     optimizer := optimizer s; reset_optimizer := reset_optimizer s;
     criterion_fn := Some f; valid_out_dim := valid_out_dim s;
     calls := calls s |}.

Definition set_valid_out_dim (s : NormalNN) (v : ValidOutDim) : NormalNN :=
  {| config := config s; args_output_mode := args_output_mode s;
     multihead := multihead s; model := model s; training := training s;
     model_training := model_training s; gpu := gpu s;
     optimizer := optimizer s; reset_optimizer := reset_optimizer s;
     criterion_fn := criterion_fn s; valid_out_dim := v;
     calls := calls s |}.

Definition record_call (s : NormalNN) (e : Event) : NormalNN :=
  {| config := config s; args_output_mode := args_output_mode s;
     multihead := multihead s; model := model s; training := training s;
     model_training := model_training s; gpu := gpu s;
     optimizer := optimizer s; reset_optimizer := reset_optimizer s;
     criterion_fn := criterion_fn s; valid_out_dim := valid_out_dim s;
     calls := calls s ++ [e] |}.

(** ** Methods run in a state-and-exception monad over the agent; the
    state reached when an exception is raised is kept. *)

Definition M (A : Type) : Type := NormalNN -> res A * NormalNN.

Definition ret {A} (a : A) : M A := fun s => (Ok a, s).

Definition bind {A B} (m : M A) (k : A -> M B) : M B :=
  fun s =>
    match m s with
    | (Ok a, s') => k a s'
    | (Raise e, s') => (Raise e, s')
    end.

Definition raise {A} (e : exn) : M A := fun s => (Raise e, s).
Definition lift {A} (r : res A) : M A := fun s => (r, s).
Definition get : M NormalNN := fun s => (Ok s, s).
Definition modify (f : NormalNN -> NormalNN) : M unit := fun s => (Ok tt, f s).

Declare Scope agent_scope.
Delimit Scope agent_scope with M.
Notation "x <- m ;; k" := (bind m (fun x => k))
  (at level 100, m at next level, right associativity) : agent_scope.
Notation "m ;; k" := (bind m (fun _ => k))
  (at level 100, right associativity) : agent_scope.

Fixpoint foldM {A B} (body : B -> A -> M B) (l : list A) (acc : B) : M B :=
  match l with
  | [] => ret acc
  | a :: l' => (acc' <- body acc a ;; foldM body l' acc')%M
  end.

Fixpoint for_each {A} (body : A -> M unit) (l : list A) : M unit :=
  match l with
  | [] => ret tt
  | a :: l' => (body a ;; for_each body l')%M
  end.

(** [enumerate(l)] *)
Definition enumerate {A} (l : list A) : list (Z * A) :=
  combine (map Z.of_nat (seq 0 (List.length l))) l.

(** [self.criterion_fn] *)
Definition getattr_criterion_fn (s : NormalNN) : res LossFn :=
  match criterion_fn s with
  | Some f => Ok f
  | None => Raise AttributeError
  end.

(** *** init_optimizer *)

Definition str_in (x : string) (l : list string) : bool :=
  existsb (String.eqb x) l.

Definition optimizer_arg (c : Config) : Config * OptimizerArg :=
  let arg := {| arg_lr := lr c; arg_weight_decay := Some (weight_decay c);
                arg_momentum := None; arg_amsgrad := false |} in
  if str_in (optimizer_name c) ["SGD"; "RMSprop"] then
    (c, {| arg_lr := lr c; arg_weight_decay := Some (weight_decay c);
           arg_momentum := Some (momentum c); arg_amsgrad := false |})
  else if str_in (optimizer_name c) ["Rprop"] then
    (c, {| arg_lr := lr c; arg_weight_decay := None;
           arg_momentum := None; arg_amsgrad := false |})
  else if String.eqb (optimizer_name c) "amsgrad" then
    (set_optimizer_name c "Adam",
     {| arg_lr := lr c; arg_weight_decay := Some (weight_decay c);
        arg_momentum := None; arg_amsgrad := true |})
  else (c, arg).

Definition init_optimizer : M unit :=
  (s <- get ;;
   let '(c, arg) := optimizer_arg (config s) in
   modify (fun s => record_call (set_config s c) EvInitOptimizer) ;;
   o <- lift (new_optimizer (optimizer_name c) arg (schedule c) (model s)) ;;
   modify (fun s => set_optimizer s o))%M.

(** *** __init__ *)

Definition NormalNN_init (output_mode : string) (agent_config : Config)
    : res NormalNN :=
  (net <- create_model agent_config ;;
   g0 <- getitem (gpuid agent_config) 0 ;;
   let '(c, arg) := optimizer_arg agent_config in
   o <- new_optimizer (optimizer_name c) arg (schedule c) net ;;
   Ok {| config := c; args_output_mode := output_mode;
         multihead := (1 <? List.length (out_dim agent_config))%nat;
         model := net; training := true; model_training := true;
         gpu := 0 <=? g0; optimizer := o; reset_optimizer := false;
         criterion_fn := None; valid_out_dim := ALL;
         calls := [EvInitOptimizer] |})%res.

(** *** forward, predict *)

Definition forward (s : NormalNN) (x : Input XTensor) : res Preds :=
  net_forward (model s) (model_training s) x.

Definition predict (inputs : Input XTensor) : M Preds :=
  (modify (fun s => set_model_training s false) ;;
   s <- get ;;
   out <- lift (forward s inputs) ;;
   (* for t in out.keys(): out[t] = out[t].detach() *)
   match out with
   | PTuple _ => raise AttributeError
   | _ => ret out
   end)%M.

(** *** criterion *)

(** The body of the loop over [preds.items()]. *)
Definition criterion_task (s : NormalNN) (targets : Targets)
    (tasks : TaskLabels) (loss : Scalar) (kv : string * Tensor) : res Scalar :=
  let '(t, t_preds) := kv in
  let inds := task_inds tasks t in
  if (0 <? List.length inds)%nat then
    (t_preds' <- index_select t_preds inds ;;
     t_target <- index_select targets inds ;;
     fn <- getattr_criterion_fn s ;;
     Ok (TScalar (scalar_value loss
                  + loss_call fn t_preds' t_target * Qlen inds)%Q))%res
  else Ok loss.

Fixpoint criterion_tasks (s : NormalNN) (targets : Targets)
    (tasks : TaskLabels) (loss : Scalar) (items : list (string * Tensor))
    : res Scalar :=
  match items with
  | [] => Ok loss
  | kv :: items' =>
      (loss' <- criterion_task s targets tasks loss kv ;;
       criterion_tasks s targets tasks loss' items')%res
  end.

(** [loss /= len(targets)].  A tensor loss over no targets does not arise:
    it is a tensor only after some [targets[inds]] with non-empty [inds]
    has succeeded (lemma [criterion_tasks_tensor]). *)
Definition div_len (loss : Scalar) (targets : Targets) : res Scalar :=
  match targets with
  | [] => Raise ZeroDivisionError
  | _ :: _ =>
      match loss with
      | PyNum q => Ok (PyNum (q / Qlen targets)%Q)
      | TScalar q => Ok (TScalar (q / Qlen targets)%Q)
      end
  end.

Definition criterion (s : NormalNN) (preds : Preds) (targets : Targets)
    (tasks : TaskLabels) : res Scalar :=
  if multihead s then
    (items <- preds_items preds ;;
     loss <- criterion_tasks s targets tasks (PyNum 0) items ;;
     div_len loss targets)%res
  else if preds_contains preds "All" then
    (pred <- preds_get preds "All" ;;
     let pred :=
       match valid_out_dim s with
       | Dim k => map (slice_upto k) pred
       | ALL => pred
       end in
     fn <- getattr_criterion_fn s ;;
     Ok (TScalar (loss_call fn pred targets)))%res
  else
    (fn <- getattr_criterion_fn s ;;
     p1 <- preds_index preds 1 ;;
     Ok (TScalar (loss_call fn p1 targets)))%res.

(** *** update_model *)

Definition update_model (inputs : Input XTensor) (targets : Targets)
    (tasks : TaskLabels) : M (Q * Preds) :=
  (s <- get ;;
   out <- lift (forward s inputs) ;;
   loss <- lift (criterion s out targets tasks) ;;
   match loss with
   | PyNum _ => raise AttributeError   (* a number has no backward() *)
   | TScalar q =>
       let '(o, net) :=
         optimizer_update (optimizer s) (model s)
           (fun net => (out <- net_forward net (model_training s) inputs ;;
                        criterion s out targets tasks)%res) in
       modify (fun s => record_call (set_model (set_optimizer s o) net)
                                    EvOptimizerStep) ;;
       ret (q, out)
   end)%M.

(** *** learn_stream, add_valid_output_dim *)

Definition learn_stream {D L : Type} (data : D) (label : L) : M unit :=
  raise (AssertionError "No implementation yet").

Definition add_valid_output_dim (dim : Z) : M Z :=
  (s <- get ;;
   (if match valid_out_dim s with ALL => true | Dim _ => false end
    then modify (fun s => set_valid_out_dim s (Dim 0))
    else ret tt) ;;
   s <- get ;;
   match valid_out_dim s with
   | Dim n =>
       modify (fun s => set_valid_out_dim s (Dim (n + dim))) ;;
       ret (n + dim)
   | ALL => raise TypeError
   end)%M.

(** The default of the parameter: [dim=0]. *)
Definition add_valid_output_dim_default : M Z := add_valid_output_dim 0.

(** *** validation *)

(** The meter a pass works with: [mcc], [acc] or [corr]. *)
Inductive Metric : Type := Mcc | Acc | Corr.

Definition Metric_eqb (a b : Metric) : bool :=
  match a, b with
  | Mcc, Mcc | Acc, Acc | Corr, Corr => true
  | _, _ => false
  end.

(** The three-way test [name == 'cola'] / [mode == 'classification'] /
    [mode == 'regression'] that both loops repeat. *)
Definition metric_branch (name mode : string) : option Metric :=
  if String.eqb name "cola" then Some Mcc
  else if String.eqb mode "classification" then Some Acc
  else if String.eqb mode "regression" then Some Corr
  else None.

Definition accumulate_metric (m : Metric) :=
  match m with
  | Mcc => accumulate_mcc
  | Acc => accumulate_acc
  | Corr => accumulate_corr
  end.

(** [target.cuda()] and the repackaging of a list input into named fields
    (placement itself changes no value). *)
Definition to_device (target : Targets) (input : Input XTensor)
    : res (Input XTensor) :=
  match input with
  | InList xs =>
      (i0 <- getitem xs 0 ;;
       i1 <- getitem xs 1 ;;
       i2 <- getitem xs 2 ;;
       Ok (InDict i0 i1 i2 target))%res
  | InTensor x => Ok (InTensor x)
  | InDict _ _ _ _ => Raise AttributeError   (* a dict has no cuda() *)
  end.

Definition Batch : Type := Input XTensor * Targets * TaskLabels.

Definition validation_batch (created : option Metric) (meter : AverageMeter.t)
    (batch : Batch) : M AverageMeter.t :=
  let '(input, target, task) := batch in
  (s <- get ;;
   input <- (if gpu s then lift (to_device target input) else ret input) ;;
   output <- predict input ;;
   match created with
   | Some m => lift (accumulate_metric m output target task meter)
   | None => ret meter
   end)%M.

Definition validation (val_name : string) (dataloader : list Batch)
    : M (option Q) :=
  (modify (fun s => record_call s (EvValidation val_name)) ;;
   output_mode <- lift (dict_get output_modes val_name) ;;
   let created := metric_branch val_name output_mode in
   match created with
   | Some Corr => modify (fun s => set_criterion_fn s MSELoss)
   | Some _ => modify (fun s => set_criterion_fn s CrossEntropyLoss)
   | None => ret tt
   end ;;
   s <- get ;;
   let orig_mode := training s in
   (* self.eval() *)
   modify (fun s => set_model_training (set_training s false) false) ;;
   meter <- foldM (validation_batch created) dataloader AverageMeter.reset ;;
   (* self.train(orig_mode) *)
   modify (fun s => set_model_training (set_training s orig_mode) orig_mode) ;;
   s <- get ;;
   match metric_branch val_name (args_output_mode s) with
   | Some m =>
       if match created with
          | Some m' => Metric_eqb m m'
          | None => false
          end
       then (a <- lift (AverageMeter.avg meter) ;; ret (Some a))
       else raise NameError   (* the meter of this branch was never bound *)
   | None => ret None
   end)%M.

(** *** learn_batch *)

(** The meters of one epoch: [losses] and the task metric. *)
Definition Meters : Type := AverageMeter.t * AverageMeter.t.

Definition learn_batch_step (created : option Metric) (n_batches : nat)
    (meters : Meters) (ib : Z * Batch) : M Meters :=
  let '(i, (input, target, task)) := ib in
  let '(losses, meter) := meters in
  (s <- get ;;
   input <- (if gpu s then lift (to_device target input) else ret input) ;;
   lo <- update_model input target task ;;
   let '(loss, output) := lo in
   n <- match input with
        | InDict input_ids _ _ _ => ret (size0 input_ids)
        | InTensor x => ret (size0 x)
        | InList _ => raise AttributeError   (* a list has no detach() *)
        end ;;
   let losses := AverageMeter.update losses loss (inject_Z n) in
   meter <- match created with
            | Some m => lift (accumulate_metric m output target task meter)
            | None => ret meter
            end ;;
   s <- get ;;
   match created with
   | Some _ =>
       if ((0 <? print_freq (config s)) && (i mod print_freq (config s) =? 0))
          || (i + 1 =? Z.of_nat n_batches)
       then (* the progress line reads both averages *)
         (lift (AverageMeter.avg losses) ;;
          lift (AverageMeter.avg meter) ;;
          ret (losses, meter))
       else ret (losses, meter)
   | None => ret (losses, meter)
   end)%M.

Definition learn_epoch (train_name output_mode : string)
    (train_loader : list Batch) (val_loader : option (list Batch))
    (epoch : Z) : M unit :=
  let created := metric_branch train_name output_mode in
  (modify (fun s => record_call s (EvEpoch epoch)) ;;
   (* self.model.train() *)
   modify (fun s => record_call (set_model_training s true) EvModelTrain) ;;
   modify (fun s => record_call
                      (set_optimizer s (scheduler_step (optimizer s) epoch))
                      (EvSchedulerStep epoch)) ;;
   meters <- foldM (learn_batch_step created (List.length train_loader))
                   (enumerate train_loader)
                   (AverageMeter.reset, AverageMeter.reset) ;;
   (* the summary line reads the epoch's average *)
   match created with
   | Some _ => (lift (AverageMeter.avg (snd meters)) ;; ret tt)
   | None => ret tt
   end ;;
   match val_loader with
   | Some loader => (validation train_name loader ;; ret tt)
   | None => ret tt
   end)%M.

Definition learn_batch (train_name : string) (train_loader : list Batch)
    (val_loader : option (list Batch)) : M unit :=
  (s <- get ;;
   (if reset_optimizer s then init_optimizer else ret tt) ;;
   output_mode <- lift (dict_get output_modes train_name) ;;
   (if String.eqb output_mode "classification"
    then modify (fun s => set_criterion_fn s CrossEntropyLoss)
    else if String.eqb output_mode "regression"
    then modify (fun s => set_criterion_fn s MSELoss)
    else ret tt) ;;
   s <- get ;;
   last_milestone <- lift (getitem_last (schedule (config s))) ;;
   for_each (learn_epoch train_name output_mode train_loader val_loader)
            (py_range last_milestone))%M.

(** ** Positional outputs *)

(** The number of positional elements of a predictions value; a dict keyed
    by task names has none. *)
Definition positional_length (p : Preds) : option nat :=
  match p with
  | PDict _ => None
  | PModelOutput fields => Some (List.length fields)
  | PTuple elems => Some (List.length elems)
  end.

(** ** Frames *)

(** [keeps R m]: the agent after [m], returned or raised, is related by [R]
    to the agent before. *)
Definition keeps (R : NormalNN -> NormalNN -> Prop) {A} (m : M A) : Prop :=
  forall s, R s (snd (m s)).

(** Only the mode flags, the configured loss and the call log may differ. *)
Definition same_core (s s' : NormalNN) : Prop :=
  config s' = config s
  /\ args_output_mode s' = args_output_mode s
  /\ multihead s' = multihead s
  /\ model s' = model s
  /\ gpu s' = gpu s
  /\ optimizer s' = optimizer s
  /\ reset_optimizer s' = reset_optimizer s
  /\ valid_out_dim s' = valid_out_dim s.

(** What the loop of [validation] leaves alone besides. *)
Definition same_pass (s s' : NormalNN) : Prop :=
  same_core s s'
  /\ training s' = training s
  /\ criterion_fn s' = criterion_fn s
  /\ calls s' = calls s.

Definition same_valid_out_dim (s s' : NormalNN) : Prop :=
  valid_out_dim s' = valid_out_dim s.

(** ** Sequences of calls on an agent *)

Inductive Call : Type :=
| CallAddValidOutputDim (dim : Z)
| CallInitOptimizer
| CallPredict (inputs : Input XTensor)
| CallValidation (val_name : string) (dataloader : list Batch)
| CallUpdateModel (inputs : Input XTensor) (targets : Targets)
    (tasks : TaskLabels)
| CallLearnBatch (train_name : string) (train_loader : list Batch)
    (val_loader : option (list Batch))
| CallLearnStream (data label : Targets).

(** The agent after a call, whether it returned or raised. *)
Definition run_call (c : Call) (s : NormalNN) : NormalNN :=
  match c with
  | CallAddValidOutputDim dim => snd (add_valid_output_dim dim s)
  | CallInitOptimizer => snd (init_optimizer s)
  | CallPredict inputs => snd (predict inputs s)
  | CallValidation val_name dataloader => snd (validation val_name dataloader s)
  | CallUpdateModel inputs targets tasks =>
      snd (update_model inputs targets tasks s)
  | CallLearnBatch train_name train_loader val_loader =>
      snd (learn_batch train_name train_loader val_loader s)
  | CallLearnStream data label => snd (learn_stream data label s)
  end.

Definition run_calls (cs : list Call) (s : NormalNN) : NormalNN :=
  fold_left (fun s c => run_call c s) cs s.

(** Every "add classes" call of the sequence has a positive count. *)
Definition positive_dim (c : Call) : Prop :=
  match c with
  | CallAddValidOutputDim dim => 0 < dim
  | _ => True
  end.

(** The order of the [valid_out_dim] state machine: [ALL] comes first, the
    integers follow in their order, and nothing leads back to [ALL]. *)
Definition vod_le (a b : ValidOutDim) : Prop :=
  match a, b with
  | ALL, _ => True
  | Dim n, Dim m => n <= m
  | Dim _, ALL => False
  end.

(** ** The aggregation formula of the specification *)

(** The entries of [xs] whose sample carries the label [t]. *)
Definition restrict {A} (xs : list A) (tasks : TaskLabels) (t : string)
    : list A :=
  map fst (filter (fun xl => String.eqb (snd xl) t) (combine xs tasks)).

(** The number of samples with label [t]. *)
Definition task_count (tasks : TaskLabels) (t : string) : nat :=
  count_occ string_dec tasks t.

(** Sum over the tasks of the prediction map of
    task-local-loss times task-sample-count. *)
Definition weighted_task_losses (fn : LossFn) (items : list (string * Tensor))
    (targets : Targets) (tasks : TaskLabels) : Q :=
  fold_right
    (fun kv acc =>
       (loss_call fn (restrict (snd kv) tasks (fst kv))
                     (restrict targets tasks (fst kv))
        * inject_Z (Z.of_nat (task_count tasks (fst kv))) + acc)%Q)
    0%Q items.

(** ** The calls of one [learn_batch] *)

Definition epoch_calls (train_name : string) (n_batches : nat)
    (validates : bool) (epoch : Z) : list Event :=
  [EvEpoch epoch; EvModelTrain; EvSchedulerStep epoch]
  ++ repeat EvOptimizerStep n_batches
  ++ (if validates then [EvValidation train_name] else []).

Definition is_scheduler_step (e : Event) : bool :=
  match e with EvSchedulerStep _ => true | _ => false end.

Definition is_validation (e : Event) : bool :=
  match e with EvValidation _ => true | _ => false end.

Definition is_epoch (e : Event) : bool :=
  match e with EvEpoch _ => true | _ => false end.

Definition Event_eqb (a b : Event) : bool :=
  match a, b with
  | EvInitOptimizer, EvInitOptimizer => true
  | EvEpoch x, EvEpoch y => x =? y
  | EvModelTrain, EvModelTrain => true
  | EvSchedulerStep x, EvSchedulerStep y => x =? y
  | EvOptimizerStep, EvOptimizerStep => true
  | EvValidation x, EvValidation y => String.eqb x y
  | _, _ => false
  end.

Definition count_calls (p : Event -> bool) (l : list Event) : nat :=
  List.length (filter p l).

End Agent.

Arguments Build_NormalNN {T} & config args_output_mode multihead model
  training model_training gpu optimizer reset_optimizer criterion_fn
  valid_out_dim calls.

(** ** Heads and logits *)

(** [d[key] = v] on an insertion-ordered dict: an existing key keeps its
    place, a new one goes last. *)
Fixpoint dict_set {V} (d : list (string * V)) (key : string) (v : V)
    : list (string * V) :=
  match d with
  | [] => [(key, v)]
  | (k, x) :: d' =>
      if String.eqb k key then (k, v) :: d'
      else (k, x) :: dict_set d' key v
  end.

Section Heads.

(** A head ([nn.Linear]) and what the backbone hands to it. *)
Variables Head Feat : Type.

(** [nn.Linear(n_feat, out_dim)], as created for a task. *)
Variable linear : string -> Z -> Z -> Head.

(** [func(x)] *)
Variable head_call : Head -> Feat -> Tensor.

(** The network surgery of [create_model]: [model.last] gets one head per
    entry of [cfg['out_dim']]. *)
Definition create_heads (n_feat : Z) (out_dim : list (string * Z))
    : list (string * Head) :=
  fold_left (fun last kv =>
               dict_set last (fst kv) (linear (fst kv) n_feat (snd kv)))
            out_dim [].

(** [new_logits], the method [create_model] installs as [model.logits]. *)
Definition new_logits (last : list (string * Head)) (x : Feat)
    : list (string * Tensor) :=
  fold_left (fun outputs kv =>
               dict_set outputs (fst kv) (head_call (snd kv) x))
            last [].

End Heads.

(** The number of samples whose label is one of the given heads. *)
Definition routed (keys : list string) (tasks : TaskLabels) : nat :=
  List.length (filter (fun l => str_in l keys) tasks).

Section Settings.

Context {T : Torch}.

(** What no method changes once the agent is built: the flags and every
    entry of the configuration but the optimizer's name. *)
Definition same_settings (s s' : NormalNN) : Prop :=
  multihead s' = multihead s
  /\ gpu s' = gpu s
  /\ args_output_mode s' = args_output_mode s
  /\ reset_optimizer s' = reset_optimizer s
  /\ valid_out_dim s' = valid_out_dim s
  /\ schedule (config s') = schedule (config s)
  /\ print_freq (config s') = print_freq (config s)
  /\ out_dim (config s') = out_dim (config s)
  /\ lr (config s') = lr (config s)
  /\ momentum (config s') = momentum (config s)
  /\ weight_decay (config s') = weight_decay (config s).

(** Calls other than [add_valid_output_dim]. *)
Definition keeps_dim (c : Call) : Prop :=
  match c with
  | CallAddValidOutputDim _ => False
  | _ => True
  end.

Definition is_optimizer_step (e : Event) : bool :=
  match e with EvOptimizerStep => true | _ => false end.

(** What [learn_batch] assigns to [criterion_fn] for an output mode. *)
Definition with_loss_of (mode : string) (s : NormalNN) : NormalNN :=
  if String.eqb mode "classification" then set_criterion_fn s CrossEntropyLoss
  else if String.eqb mode "regression" then set_criterion_fn s MSELoss
  else s.

End Settings.

(** ** A concrete set of collaborators

    A one-weight network with rational arithmetic, on which the embedding
    runs by computation.  The losses and metrics are rational stand-ins for
    torch's: the theorems below hold for every [Torch]. *)

Module Example.

Definition Qsum (l : list Q) : Q := fold_right Qplus 0%Q l.

Definition Qmean (l : list Q) : Q := (Qsum l / Qlen l)%Q.

(** Mean over the rows of (row sum - target) squared. *)
Definition squared_error (pred : Tensor) (target : Targets) : Q :=
  Qmean (map (fun rt => ((Qsum (fst rt) - snd rt) * (Qsum (fst rt) - snd rt))%Q)
             (combine pred target)).

(** The share of rows whose sum misses the target. *)
Definition miss_rate (pred : Tensor) (target : Targets) : Q :=
  Qmean (map (fun rt => if Qeq_bool (Qsum (fst rt)) (snd rt) then 0%Q else 1%Q)
             (combine pred target)).

Definition hit_rate (pred : Tensor) (target : Targets) : Q :=
  (1 - miss_rate pred target)%Q.

(** transformers' [glue_output_modes]. *)
Definition glue_output_modes : list (string * string) :=
  [("cola", "classification"); ("mnli", "classification");
   ("mnli-mm", "classification"); ("mrpc", "classification");
   ("sst-2", "classification"); ("sts-b", "regression");
   ("qqp", "classification"); ("qnli", "classification");
   ("rte", "classification"); ("wnli", "classification")].

Definition torch : Torch := {|
  XTensor := Tensor;
  size0 := fun x => Z.of_nat (List.length x);
  Net := Q;
  Optim := Z * nat;
  create_model := fun _ => Ok 1%Q;
  net_forward := fun w _ input =>
    match input with
    | InTensor x => Ok (PDict [("All", map (map (Qmult w)) x)])
    | InList _ => Raise TypeError
    | InDict input_ids _ _ _ =>
        Ok (PModelOutput [("loss", [[0%Q]]);
                          ("logits", map (map (Qmult w)) input_ids)])
    end;
  new_optimizer := fun name _ _ _ =>
    if str_in name ["SGD"; "RMSprop"; "Rprop"; "Adam"] then Ok (0, 0%nat)
    else Raise KeyError;
  scheduler_step := fun o epoch => (epoch, snd o);
  optimizer_update := fun o w _ => ((fst o, S (snd o)), w);
  loss_call := fun fn =>
    match fn with
    | MSELoss => squared_error
    | CrossEntropyLoss => miss_rate
    end;
  accuracy := hit_rate;
  matthews := hit_rate;
  pearson_and_spearman := hit_rate;
  output_modes := glue_output_modes
|}.

Definition agent_config : Config := {|
  lr := 1 # 100; momentum := 9 # 10; weight_decay := 0;
  schedule := [1];
  model_type := "mlp"; model_name := "MLP100";
  out_dim := [("All", 2)];
  model_weights := None;
  print_freq := 1;
  gpuid := [-1];
  optimizer_name := "SGD"
|}.

(** The agent [NormalNN(args, agent_config)] builds. *)
Definition agent : NormalNN (T := torch) := {|
  config := agent_config; args_output_mode := "classification";
  multihead := false; model := 1%Q; training := true;
  model_training := true; gpu := false; optimizer := (0, 0%nat);
  reset_optimizer := false; criterion_fn := None; valid_out_dim := ALL;
  calls := [EvInitOptimizer]
|}.

(** The same agent with two heads and a regression loss configured. *)
Definition two_head_agent : NormalNN (T := torch) := {|
  config := agent_config; args_output_mode := "regression";
  multihead := true; model := 1%Q; training := true;
  model_training := true; gpu := false; optimizer := (0, 0%nat);
  reset_optimizer := false; criterion_fn := Some MSELoss;
  valid_out_dim := ALL; calls := [EvInitOptimizer]
|}.

(** A batch of eight samples, three of task A and five of task B; each head
    scores all eight. *)
Definition mixed_tasks : TaskLabels := ["A"; "B"; "A"; "B"; "B"; "A"; "B"; "B"].
Definition mixed_targets : Targets := [0; 0; 0; 0; 0; 0; 0; 0]%Q.
Definition head_A : Tensor := [[1]; [7]; [1]; [7]; [7]; [1]; [7]; [7]]%Q.
Definition head_B : Tensor := [[9]; [1]; [9]; [1]; [2]; [9]; [2]; [0]]%Q.
Definition mixed_preds : list (string * Tensor) :=
  [("A", head_A); ("B", head_B)].

(** Two samples with three output columns each. *)
Definition all_preds : list (string * Tensor) :=
  [("All", [[1; 2; 4]; [0; 1; 8]]%Q)].
Definition two_targets : Targets := [1; 1]%Q.

(** A data loader of two batches for a single-head classifier. *)
Definition loader : list (Batch (T := torch)) :=
  [(InTensor [[1; 0]; [0; 1]]%Q, [1; 1]%Q, ["All"; "All"]);
   (InTensor [[2; 0]]%Q, [1]%Q, ["All"])].

(** A positional output of three tensors. *)
Definition three_outputs : list Tensor :=
  [[[5]]; [[3]]; [[4]]]%Q.

(** The single-head agent after [learn_batch] has configured a regression
    loss. *)
Definition regression_agent : NormalNN (T := torch) :=
  set_criterion_fn agent MSELoss.

(** The head of a task C that no sample of the mixed batch belongs to. *)
Definition idle_head : Tensor :=
  [[3]; [3]; [3]; [3]; [3]; [3]; [3]; [3]]%Q.

(** The agent of a configuration that asks for the AMSGrad variant. *)
Definition amsgrad_agent : NormalNN (T := torch) := {|
  config := set_optimizer_name agent_config "amsgrad";
  args_output_mode := "classification";
  multihead := false; model := 1%Q; training := true;
  model_training := true; gpu := false; optimizer := (0, 0%nat);
  reset_optimizer := true; criterion_fn := None; valid_out_dim := ALL;
  calls := []
|}.

(** A batch whose input is a list of three tensors. *)
Definition list_batch : Batch (T := torch) :=
  (InList [[[1; 0]]; [[1; 1]]; [[0; 0]]]%Q, [1]%Q, ["All"]).

(** A configuration with a single task that is not called "All". *)
Definition one_task_config : Config := {|
  lr := 1 # 100; momentum := 9 # 10; weight_decay := 0;
  schedule := [1];
  model_type := "mlp"; model_name := "MLP100";
  out_dim := [("sst-2", 2)];
  model_weights := None;
  print_freq := 1;
  gpuid := [-1];
  optimizer_name := "SGD"
|}.

End Example.

(** * Properties *)

(** ** Index selection and the task router *)

Lemma getitem_middle {A} (l1 l2 : list A) (a : A) :
  getitem (l1 ++ a :: l2) (List.length l1) = Ok a.
Proof.
  unfold getitem.
  rewrite nth_error_app2 by lia.
  now rewrite Nat.sub_diag.
Qed.

Lemma index_select_length {A} (l : list A) (inds : list nat) (r : list A) :
  index_select l inds = Ok r -> List.length r = List.length inds.
Proof.
  revert r. induction inds as [|i inds IH]; simpl; intros r H.
  - now inversion H.
  - destruct (getitem l i); simpl in H; [|discriminate].
    destruct (index_select l inds); simpl in H; [|discriminate].
    inversion H; subst. simpl. f_equal. now apply IH.
Qed.

(** Selecting the positions that the comprehension collects is filtering
    by label; stated for a suffix of the batch so that the induction goes
    through. *)
Lemma index_select_by_label {A} (t : string) (t2 : TaskLabels) :
  forall (l1 l2 : list A) (t1 : TaskLabels),
    List.length l1 = List.length t1 ->
    List.length l2 = List.length t2 ->
    index_select (l1 ++ l2)
      (filter (label_at (t1 ++ t2) t)
              (seq (List.length t1) (List.length t2)))
    = Ok (restrict l2 t2 t).
Proof.
  induction t2 as [|x t2 IH]; intros l1 l2 t1 H1 H2.
  - destruct l2; [reflexivity | discriminate].
  - destruct l2 as [|a l2]; [discriminate|].
    simpl in H2. injection H2 as H2.
    cbn [List.length seq filter].
    assert (Hx : label_at (t1 ++ x :: t2) t (List.length t1) = String.eqb x t).
    { unfold label_at. rewrite nth_error_app2 by lia.
      now rewrite Nat.sub_diag. }
    rewrite Hx.
    assert (Hrest : index_select (l1 ++ a :: l2)
              (filter (label_at (t1 ++ x :: t2) t)
                      (seq (S (List.length t1)) (List.length t2)))
            = Ok (restrict l2 t2 t)).
    { specialize (IH (l1 ++ [a]) l2 (t1 ++ [x])).
      rewrite <- !app_assoc in IH. simpl in IH.
      rewrite !length_app in IH. simpl in IH.
      rewrite !Nat.add_1_r in IH.
      apply IH; [now f_equal | assumption]. }
    unfold restrict. cbn [combine filter snd].
    destruct (String.eqb x t).
    + cbn [index_select map fst].
      rewrite <- H1, getitem_middle. cbn [res_bind].
      rewrite H1, Hrest. reflexivity.
    + exact Hrest.
Qed.

Lemma task_inds_select {A} (l : list A) (tasks : TaskLabels) (t : string) :
  List.length l = List.length tasks ->
  index_select l (task_inds tasks t) = Ok (restrict l tasks t).
Proof.
  intros H.
  exact (index_select_by_label t tasks [] l [] eq_refl H).
Qed.

Lemma restrict_length {A} (l : list A) (tasks : TaskLabels) (t : string) :
  List.length l = List.length tasks ->
  List.length (restrict l tasks t) = task_count tasks t.
Proof.
  revert l. induction tasks as [|x tasks IH]; intros l H.
  - destruct l; [reflexivity | discriminate].
  - destruct l as [|a l]; [discriminate|].
    injection H as H. unfold restrict, task_count in *.
    cbn [combine filter snd count_occ].
    destruct (String.eqb_spec x t) as [->|Hne].
    + destruct (string_dec t t) as [_|C]; [|contradiction].
      cbn [map List.length]. f_equal. now apply IH.
    + destruct (string_dec x t) as [C|_]; [contradiction|]. now apply IH.
Qed.

Lemma task_inds_length (tasks : TaskLabels) (t : string) :
  List.length (task_inds tasks t) = task_count tasks t.
Proof.
  rewrite <- (index_select_length tasks (task_inds tasks t)
                (restrict tasks tasks t)).
  - now apply restrict_length.
  - now apply task_inds_select.
Qed.

(** ** The multi-head loss *)

Section Criterion.

Context {T : Torch}.

Lemma getattr_criterion_fn_set (s : NormalNN) (fn : LossFn) :
  criterion_fn s = Some fn -> getattr_criterion_fn s = Ok fn.
Proof. unfold getattr_criterion_fn. now intros ->. Qed.

(** One round of the loop adds the task's loss times its sample count. *)
Lemma criterion_task_adds (s : NormalNN) (fn : LossFn) (targets : Targets)
    (tasks : TaskLabels) (loss : Scalar) (t : string) (t_preds : Tensor) :
  criterion_fn s = Some fn ->
  List.length targets = List.length tasks ->
  List.length t_preds = List.length tasks ->
  exists loss',
    criterion_task s targets tasks loss (t, t_preds) = Ok loss'
    /\ (scalar_value loss' ==
        scalar_value loss
        + loss_call fn (restrict t_preds tasks t) (restrict targets tasks t)
          * inject_Z (Z.of_nat (task_count tasks t)))%Q.
Proof.
  intros Hfn Htg Hp. unfold criterion_task.
  rewrite (task_inds_select t_preds tasks t Hp).
  rewrite (task_inds_select targets tasks t Htg).
  rewrite (getattr_criterion_fn_set s fn Hfn).
  unfold Qlen. rewrite task_inds_length.
  destruct (0 <? task_count tasks t)%nat eqn:E.
  - eexists; split; [reflexivity|]. simpl. reflexivity.
  - apply Nat.ltb_ge in E.
    assert (E0 : task_count tasks t = 0%nat) by lia.
    exists loss; split; [reflexivity|]. rewrite E0. simpl. ring.
Qed.

Lemma criterion_tasks_cons (s : NormalNN) (targets : Targets)
    (tasks : TaskLabels) (loss : Scalar) (kv : string * Tensor)
    (items : list (string * Tensor)) :
  criterion_tasks s targets tasks loss (kv :: items)
  = res_bind (criterion_task s targets tasks loss kv)
             (fun loss' => criterion_tasks s targets tasks loss' items).
Proof. reflexivity. Qed.

Lemma weighted_task_losses_cons (fn : LossFn) (kv : string * Tensor)
    (items : list (string * Tensor)) (targets : Targets) (tasks : TaskLabels) :
  weighted_task_losses fn (kv :: items) targets tasks
  = (loss_call fn (restrict (snd kv) tasks (fst kv))
                  (restrict targets tasks (fst kv))
     * inject_Z (Z.of_nat (task_count tasks (fst kv)))
     + weighted_task_losses fn items targets tasks)%Q.
Proof. reflexivity. Qed.

Lemma criterion_tasks_sum (s : NormalNN) (fn : LossFn) (targets : Targets)
    (tasks : TaskLabels) (items : list (string * Tensor)) :
  criterion_fn s = Some fn ->
  List.length targets = List.length tasks ->
  Forall (fun kv => List.length (snd kv) = List.length tasks) items ->
  forall loss,
  exists loss',
    criterion_tasks s targets tasks loss items = Ok loss'
    /\ (scalar_value loss' ==
        scalar_value loss + weighted_task_losses fn items targets tasks)%Q.
Proof.
  intros Hfn Htg Hall.
  induction Hall as [|[t tp] items Hp _ IH]; intros loss.
  - exists loss; split; [reflexivity|]. simpl. ring.
  - destruct (criterion_task_adds s fn targets tasks loss t tp Hfn Htg Hp)
      as (l1 & E1 & V1).
    destruct (IH l1) as (l2 & E2 & V2).
    exists l2; split.
    + rewrite criterion_tasks_cons.
      change (criterion_task s targets tasks loss (t, tp))
        with (criterion_task s targets tasks loss (t, tp : Tensor)).
      rewrite E1. exact E2.
    + rewrite V2, V1, weighted_task_losses_cons. cbn [fst snd]. ring.
Qed.

(** Dividing keeps the kind of the loss and divides its value. *)
Lemma div_len_value (loss : Scalar) (targets : Targets) :
  targets <> [] ->
  exists loss',
    div_len loss targets = Ok loss'
    /\ scalar_value loss' = (scalar_value loss / Qlen targets)%Q.
Proof.
  intros H. destruct targets as [|y targets]; [contradiction|].
  destruct loss; eexists; (split; [reflexivity|]); reflexivity.
Qed.

(** The loss becomes a tensor only where some [targets[inds]] with
    non-empty [inds] has succeeded, so [div_len] never divides a tensor by
    the length of no targets. *)
Lemma criterion_task_tensor (s : NormalNN) (targets : Targets)
    (tasks : TaskLabels) (loss loss' : Scalar) (kv : string * Tensor) :
  criterion_task s targets tasks loss kv = Ok loss' ->
  loss' = loss \/ targets <> [].
Proof.
  destruct kv as [t t_preds]. unfold criterion_task.
  destruct (task_inds tasks t) as [|i inds].
  - cbn. intros H. injection H as <-. now left.
  - cbn [List.length Nat.ltb Nat.leb].
    destruct (index_select t_preds (i :: inds)); cbn [res_bind];
      [|discriminate].
    destruct targets as [|y targets]; [|intros _; now right].
    cbn. destruct i; discriminate.
Qed.

Lemma criterion_tasks_tensor (s : NormalNN) (targets : Targets)
    (tasks : TaskLabels) (items : list (string * Tensor)) :
  forall loss loss',
    criterion_tasks s targets tasks loss items = Ok loss' ->
    loss' = loss \/ targets <> [].
Proof.
  induction items as [|kv items IH]; intros loss loss' H.
  - injection H as <-. now left.
  - rewrite criterion_tasks_cons in H.
    destruct (criterion_task s targets tasks loss kv) as [l1|e] eqn:E;
      [|discriminate].
    cbn [res_bind] in H.
    apply criterion_task_tensor in E. apply IH in H.
    destruct E as [->|E]; [exact H | now right].
Qed.

(** X3.  On a batch of no samples the multi-head branch divides the number
    0 by zero: [criterion] raises ZeroDivisionError whatever the heads. *)
Lemma criterion_multihead_empty_batch (s : NormalNN)
    (items : list (string * Tensor)) :
  multihead s = true ->
  criterion s (PDict items) [] [] = Raise ZeroDivisionError.
Proof.
  intros Hm. unfold criterion. rewrite Hm. cbn [preds_items res_bind].
  assert (H : criterion_tasks s [] [] (PyNum 0) items = Ok (PyNum 0)).
  { induction items as [|[t tp] items IH]; [reflexivity|].
    rewrite criterion_tasks_cons. cbn. exact IH. }
  now rewrite H.
Qed.

(** C1.  In multi-head mode, for a prediction map, targets and task labels
    of one batch size N > 0, [criterion] returns the sum over the tasks of
    the map of (base loss on the samples with that label) times (number of
    such samples), divided by N. *)
Theorem criterion_multihead_weighted_average (s : NormalNN) (fn : LossFn)
    (items : list (string * Tensor)) (targets : Targets) (tasks : TaskLabels) :
  multihead s = true ->
  criterion_fn s = Some fn ->
  List.length targets = List.length tasks ->
  Forall (fun kv => List.length (snd kv) = List.length tasks) items ->
  (0 < List.length tasks)%nat ->
  exists loss,
    criterion s (PDict items) targets tasks = Ok loss
    /\ (scalar_value loss ==
        weighted_task_losses fn items targets tasks
        / inject_Z (Z.of_nat (List.length tasks)))%Q.
Proof.
  intros Hm Hfn Htg Hall Hn.
  destruct (criterion_tasks_sum s fn targets tasks items Hfn Htg Hall (PyNum 0))
    as (l1 & E1 & V1).
  assert (Hne : targets <> []).
  { intros ->. simpl in Htg. lia. }
  destruct (div_len_value l1 targets Hne) as (l2 & E2 & V2).
  exists l2; split.
  - unfold criterion. rewrite Hm. cbn [preds_items res_bind].
    rewrite E1. exact E2.
  - rewrite V2, V1. unfold Qlen. rewrite Htg. simpl scalar_value.
    rewrite Qplus_0_l. reflexivity.
Qed.

End Criterion.

(** The batch of the specification: task counts A: 3, B: 5 and per-task
    losses 1 and 2 aggregate to 1.625. *)
Lemma criterion_multihead_example :
  task_count Example.mixed_tasks "A" = 3%nat
  /\ task_count Example.mixed_tasks "B" = 5%nat
  /\ exists loss,
       criterion Example.two_head_agent (PDict Example.mixed_preds)
                 Example.mixed_targets Example.mixed_tasks = Ok loss
       /\ (scalar_value loss == 1625 # 1000)%Q.
Proof.
  split; [reflexivity|]. split; [reflexivity|].
  destruct (criterion_multihead_weighted_average
              Example.two_head_agent MSELoss Example.mixed_preds
              Example.mixed_targets Example.mixed_tasks)
    as (loss & E & V).
  - reflexivity.
  - reflexivity.
  - reflexivity.
  - repeat constructor.
  - simpl. lia.
  - exists loss. split; [exact E|].
    rewrite V. vm_compute. reflexivity.
Defined.

(** ** The metric accumulator *)

Module AverageMeterFacts.

Import AverageMeter.

Lemma updates_sum (l : list (Q * Q)) :
  forall m, (sum (updates m l) == sum m + weighted_total l)%Q.
Proof.
  induction l as [|[v w] l IH]; intros m.
  - simpl. ring.
  - change (updates m ((v, w) :: l)) with (updates (update m v w) l).
    rewrite IH. simpl. ring.
Qed.

Lemma updates_count (l : list (Q * Q)) :
  forall m, (count (updates m l) == count m + total_weight l)%Q.
Proof.
  induction l as [|[v w] l IH]; intros m.
  - simpl. ring.
  - change (updates m ((v, w) :: l)) with (updates (update m v w) l).
    rewrite IH. simpl. ring.
Qed.

Lemma weighted_total_perm (l1 l2 : list (Q * Q)) :
  Permutation l1 l2 -> (weighted_total l1 == weighted_total l2)%Q.
Proof.
  induction 1 as [|x l l' _ IH|x y l|l l' l'' _ IH1 _ IH2]; simpl.
  - reflexivity.
  - now rewrite IH.
  - ring.
  - now rewrite IH1.
Qed.

Lemma total_weight_perm (l1 l2 : list (Q * Q)) :
  Permutation l1 l2 -> (total_weight l1 == total_weight l2)%Q.
Proof.
  induction 1 as [|x l l' _ IH|x y l|l l' l'' _ IH1 _ IH2]; simpl.
  - reflexivity.
  - now rewrite IH.
  - ring.
  - now rewrite IH1.
Qed.

(** A fresh meter fed the pairs of [l] averages to the weighted mean. *)
Lemma avg_updates (l : list (Q * Q)) :
  (0 < total_weight l)%Q ->
  exists a,
    avg (updates reset l) = Ok a
    /\ (a == weighted_total l / total_weight l)%Q.
Proof.
  intros Hpos. unfold avg.
  assert (Hc : (count (updates reset l) == total_weight l)%Q).
  { rewrite updates_count. simpl. ring. }
  destruct (Qeq_bool (count (updates reset l)) 0) eqn:E.
  - apply Qeq_bool_iff in E. rewrite Hc in E. rewrite E in Hpos.
    now apply Qlt_irrefl in Hpos.
  - eexists; split; [reflexivity|].
    rewrite Hc, updates_sum. simpl.
    now rewrite Qplus_0_l.
Qed.

(** C9.  For (value, weight) pairs of positive total weight, a fresh meter
    updated once per pair has the same [avg] whatever the order of the
    updates: (sum of value*weight) / (sum of weight). *)
Theorem avg_order_invariant (l1 l2 : list (Q * Q)) :
  Permutation l1 l2 ->
  (0 < total_weight l1)%Q ->
  exists a1 a2,
    avg (updates reset l1) = Ok a1
    /\ avg (updates reset l2) = Ok a2
    /\ (a1 == a2)%Q
    /\ (a1 == weighted_total l1 / total_weight l1)%Q.
Proof.
  intros Hperm Hpos.
  assert (Hpos2 : (0 < total_weight l2)%Q).
  { now rewrite <- (total_weight_perm l1 l2 Hperm). }
  destruct (avg_updates l1 Hpos) as (a1 & E1 & V1).
  destruct (avg_updates l2 Hpos2) as (a2 & E2 & V2).
  exists a1, a2. repeat split; try assumption.
  rewrite V1, V2.
  now rewrite (weighted_total_perm l1 l2 Hperm), (total_weight_perm l1 l2 Hperm).
Qed.

(** Three updates in two orders: both average to 13/8. *)
Lemma avg_order_invariant_example :
  exists a1 a2,
    avg (updates reset [(1, 3); (2, 4); (2, 1)]%Q) = Ok a1
    /\ avg (updates reset [(2, 4); (2, 1); (1, 3)]%Q) = Ok a2
    /\ (a1 == a2)%Q
    /\ (a1 == 13 # 8)%Q.
Proof.
  destruct (avg_order_invariant [(1, 3); (2, 4); (2, 1)]%Q
                                [(2, 4); (2, 1); (1, 3)]%Q)
    as (a1 & a2 & E1 & E2 & V & W).
  - apply Permutation_cons_append with (l := [(2, 4); (2, 1)]%Q).
  - vm_compute. reflexivity.
  - exists a1, a2. split; [exact E1|]. split; [exact E2|].
    split; [exact V|]. rewrite W. vm_compute. reflexivity.
Defined.

End AverageMeterFacts.

(** ** The single-head loss *)

Section SingleHead.

Context {T : Torch}.

Lemma dict_has_get {V} (d : list (string * V)) (key : string) :
  dict_has d key = true -> exists v, dict_get d key = Ok v.
Proof.
  induction d as [|[k v] d IH]; simpl; intros H.
  - discriminate.
  - destruct (String.eqb k key).
    + now exists v.
    + now apply IH.
Qed.

Lemma preds_contains_get (p : Preds) (key : string) :
  preds_contains p key = true -> exists v, preds_get p key = Ok v.
Proof.
  destruct p; simpl; intros H; try discriminate; now apply dict_has_get.
Qed.

Lemma slice_upto_nonneg {A} (k : Z) (row : list A) :
  0 <= k -> slice_upto k row = firstn (Z.to_nat k) row.
Proof.
  intros H. unfold slice_upto.
  destruct (0 <=? k) eqn:E; [reflexivity|].
  apply Z.leb_gt in E. lia.
Qed.

(** C3.  In single-head mode, for predictions holding the key "All": with
    [valid_out_dim] an integer k (non-negative, as the data model has it)
    the loss is the base loss on the first k columns of [preds["All"]]
    against the full targets; with the sentinel ALL it is the base loss on
    [preds["All"]] as it is. *)
Theorem criterion_single_head_masking (s : NormalNN) (preds : Preds)
    (targets : Targets) (tasks : TaskLabels) (fn : LossFn) :
  multihead s = false ->
  preds_contains preds "All" = true ->
  criterion_fn s = Some fn ->
  exists pred,
    preds_get preds "All" = Ok pred
    /\ (forall k, valid_out_dim s = Dim k -> 0 <= k ->
          criterion s preds targets tasks
          = Ok (TScalar (loss_call fn (map (firstn (Z.to_nat k)) pred) targets)))
    /\ (valid_out_dim s = ALL ->
          criterion s preds targets tasks
          = Ok (TScalar (loss_call fn pred targets))).
Proof.
  intros Hm Hall Hfn.
  destruct (preds_contains_get preds "All" Hall) as (pred & Hget).
  exists pred. split; [exact Hget|].
  unfold criterion. rewrite Hm, Hall, Hget.
  rewrite (getattr_criterion_fn_set s fn Hfn). cbn [res_bind].
  split.
  - intros k Hk Hnn. rewrite Hk.
    do 3 f_equal. apply map_ext. intros row. now apply slice_upto_nonneg.
  - intros Hk. now rewrite Hk.
Qed.

(** C7 (as the code has it).  In single-head mode, for predictions without
    the key "All", the fallback computes the base loss from the element at
    index 1; the call fails exactly when the predictions admit no index 1:
    a dict keyed by task names, or a positional output of fewer than two
    elements.  A positional output of more than two elements yields a
    loss. *)
Theorem criterion_single_head_fallback (s : NormalNN) (preds : Preds)
    (targets : Targets) (tasks : TaskLabels) (fn : LossFn) :
  multihead s = false ->
  preds_contains preds "All" = false ->
  criterion_fn s = Some fn ->
  match positional_length preds with
  | Some n =>
      if (2 <=? n)%nat
      then exists p1,
             preds_index preds 1 = Ok p1
             /\ criterion s preds targets tasks
                = Ok (TScalar (loss_call fn p1 targets))
      else criterion s preds targets tasks = Raise IndexError
  | None => criterion s preds targets tasks = Raise KeyError
  end.
Proof.
  intros Hm Hall Hfn. unfold criterion. rewrite Hm, Hall.
  rewrite (getattr_criterion_fn_set s fn Hfn). cbn [res_bind].
  destruct preds as [items|fields|elems]; cbn [positional_length preds_index].
  - reflexivity.
  - rewrite <- (length_map snd fields).
    destruct (map snd fields) as [|a [|b l]]; cbn; eauto.
  - destruct elems as [|a [|b l]]; cbn; eauto.
Qed.

End SingleHead.

(** Masking to two of three columns on a concrete batch. *)
Lemma criterion_single_head_masking_example :
  exists pred,
    preds_get (PDict Example.all_preds) "All" = Ok pred
    /\ criterion (set_valid_out_dim Example.regression_agent (Dim 2))
                 (PDict Example.all_preds) Example.two_targets ["All"; "All"]
       = Ok (TScalar (Example.squared_error [[1; 2]; [0; 1]]%Q Example.two_targets))
    /\ criterion Example.regression_agent
                 (PDict Example.all_preds) Example.two_targets ["All"; "All"]
       = Ok (TScalar (Example.squared_error [[1; 2; 4]; [0; 1; 8]]%Q
                                Example.two_targets)).
Proof.
  destruct (criterion_single_head_masking
              (set_valid_out_dim Example.regression_agent (Dim 2))
              (PDict Example.all_preds) Example.two_targets ["All"; "All"]
              MSELoss)
    as (pred & Hget & Hdim & _); [reflexivity | reflexivity | reflexivity |].
  exists pred. split; [exact Hget|]. split.
  - rewrite (Hdim 2); [|reflexivity|lia].
    injection Hget as <-. reflexivity.
  - reflexivity.
Defined.

(** A positional output of three elements is not an exactly-two-element
    structure, and the fallback returns a loss for it. *)
Lemma criterion_fallback_three_outputs :
  List.length Example.three_outputs = 3%nat
  /\ preds_contains (PTuple Example.three_outputs) "All" = false
  /\ criterion Example.regression_agent (PTuple Example.three_outputs)
               [0%Q] ["All"]
     = Ok (TScalar (9 # 1)).
Proof. repeat split. Qed.

(** The fallback on the same output, through the theorem. *)
Lemma criterion_single_head_fallback_example :
  exists p1,
    preds_index (PTuple Example.three_outputs) 1 = Ok p1
    /\ criterion Example.regression_agent (PTuple Example.three_outputs)
                 [0%Q] ["All"]
       = Ok (TScalar (Example.squared_error p1 [0%Q])).
Proof.
  exact (criterion_single_head_fallback
           Example.regression_agent (PTuple Example.three_outputs)
           [0%Q] ["All"] MSELoss eq_refl eq_refl eq_refl).
Defined.

(** ** What a method leaves alone *)

Section Frames.

Context {T : Torch}.

Section Keeps.

Variable R : NormalNN -> NormalNN -> Prop.
Hypothesis R_refl : forall s, R s s.
Hypothesis R_trans : forall s1 s2 s3, R s1 s2 -> R s2 s3 -> R s1 s3.

Lemma keeps_ret {A} (a : A) : keeps R (ret a).
Proof. intros s. apply R_refl. Qed.

Lemma keeps_raise {A} (e : exn) : keeps R (raise (A := A) e).
Proof. intros s. apply R_refl. Qed.

Lemma keeps_lift {A} (r : res A) : keeps R (lift r).
Proof. intros s. apply R_refl. Qed.

Lemma keeps_get : keeps R get.
Proof. intros s. apply R_refl. Qed.

Lemma keeps_modify (f : NormalNN -> NormalNN) :
  (forall s, R s (f s)) -> keeps R (modify f).
Proof. intros H s. apply H. Qed.

Lemma keeps_bind {A B} (m : M A) (k : A -> M B) :
  keeps R m -> (forall a, keeps R (k a)) -> keeps R (bind m k).
Proof.
  intros Hm Hk s. unfold bind.
  specialize (Hm s). destruct (m s) as [[a|e] s1]; simpl in *.
  - eapply R_trans; [exact Hm | apply Hk].
  - exact Hm.
Qed.

Lemma keeps_foldM {A B} (body : B -> A -> M B) (l : list A) :
  (forall acc a, keeps R (body acc a)) ->
  forall acc, keeps R (foldM body l acc).
Proof.
  intros H. induction l as [|a l IH]; intros acc; simpl.
  - apply keeps_ret.
  - apply keeps_bind; [apply H | exact IH].
Qed.

Lemma keeps_for_each {A} (body : A -> M unit) (l : list A) :
  (forall a, keeps R (body a)) -> keeps R (for_each body l).
Proof.
  intros H. induction l as [|a l IH]; simpl.
  - apply keeps_ret.
  - apply keeps_bind; [apply H | intros _; exact IH].
Qed.

End Keeps.

Lemma same_core_refl s : same_core s s.
Proof. repeat split. Qed.

Lemma same_core_trans s1 s2 s3 :
  same_core s1 s2 -> same_core s2 s3 -> same_core s1 s3.
Proof.
  unfold same_core. intros H1 H2.
  decompose [and] H1. decompose [and] H2. repeat split; congruence.
Qed.

Lemma same_pass_refl s : same_pass s s.
Proof. repeat split. Qed.

Lemma same_pass_trans s1 s2 s3 :
  same_pass s1 s2 -> same_pass s2 s3 -> same_pass s1 s3.
Proof.
  unfold same_pass, same_core. intros H1 H2.
  decompose [and] H1. decompose [and] H2. repeat split; congruence.
Qed.

Lemma same_valid_out_dim_refl s : same_valid_out_dim s s.
Proof. reflexivity. Qed.

Lemma same_valid_out_dim_trans s1 s2 s3 :
  same_valid_out_dim s1 s2 -> same_valid_out_dim s2 s3 ->
  same_valid_out_dim s1 s3.
Proof. unfold same_valid_out_dim. congruence. Qed.

End Frames.

Create HintDb frames.

#[local] Hint Resolve same_core_refl same_core_trans same_pass_refl
  same_pass_trans same_valid_out_dim_refl same_valid_out_dim_trans : frames.

(** Walks down a method body, one monadic construct at a time. *)
Ltac keeps_step :=
  first
    [ solve [auto with frames]
    | apply keeps_ret; solve [auto with frames]
    | apply keeps_raise; solve [auto with frames]
    | apply keeps_lift; solve [auto with frames]
    | apply keeps_get; solve [auto with frames]
    | apply keeps_modify; intros; solve [repeat split]
    | apply keeps_bind; [solve [eauto with frames] | | intros]
    | apply keeps_foldM; [solve [auto with frames]
                         | solve [eauto with frames] | intros]
    | apply keeps_for_each; [solve [auto with frames]
                            | solve [eauto with frames] | intros]
    | match goal with
      | |- keeps _ (match ?x with _ => _ end) => destruct x
      end ].

Ltac keeps_tac := repeat keeps_step.

Section MethodFrames.

Context {T : Torch}.

Lemma keeps_weaken (R R' : NormalNN -> NormalNN -> Prop) {A} (m : M A) :
  (forall s s', R s s' -> R' s s') -> keeps R m -> keeps R' m.
Proof. intros H Hm s. apply H, Hm. Qed.

Lemma same_pass_core s s' : same_pass s s' -> same_core s s'.
Proof. now intros [H _]. Qed.

Lemma same_core_valid_out_dim s s' :
  same_core s s' -> same_valid_out_dim s s'.
Proof. unfold same_core, same_valid_out_dim. tauto. Qed.

Lemma predict_keeps_pass inputs : keeps same_pass (predict inputs).
Proof. unfold predict. keeps_tac. Qed.

#[local] Hint Resolve predict_keeps_pass : frames.

Lemma validation_batch_keeps_pass created meter batch :
  keeps same_pass (validation_batch created meter batch).
Proof. unfold validation_batch. keeps_tac. Qed.

Lemma validation_batch_keeps_core created meter batch :
  keeps same_core (validation_batch created meter batch).
Proof.
  apply (keeps_weaken same_pass); [exact same_pass_core|].
  apply validation_batch_keeps_pass.
Qed.

#[local] Hint Resolve validation_batch_keeps_pass
  validation_batch_keeps_core : frames.

Lemma validation_keeps_core val_name dataloader :
  keeps same_core (validation val_name dataloader).
Proof. unfold validation. keeps_tac. Qed.

Lemma validation_keeps_valid_out_dim val_name dataloader :
  keeps same_valid_out_dim (validation val_name dataloader).
Proof.
  apply (keeps_weaken same_core); [exact same_core_valid_out_dim|].
  apply validation_keeps_core.
Qed.

Lemma predict_keeps_valid_out_dim inputs :
  keeps same_valid_out_dim (predict inputs).
Proof. unfold predict. keeps_tac. Qed.

Lemma init_optimizer_keeps_valid_out_dim :
  keeps same_valid_out_dim init_optimizer.
Proof. unfold init_optimizer. keeps_tac. Qed.

Lemma update_model_keeps_valid_out_dim inputs targets tasks :
  keeps same_valid_out_dim (update_model inputs targets tasks).
Proof. unfold update_model. keeps_tac. Qed.

#[local] Hint Resolve validation_keeps_valid_out_dim
  init_optimizer_keeps_valid_out_dim
  update_model_keeps_valid_out_dim : frames.

Lemma learn_batch_step_keeps_valid_out_dim created n meters ib :
  keeps same_valid_out_dim (learn_batch_step created n meters ib).
Proof. unfold learn_batch_step. keeps_tac. Qed.

#[local] Hint Resolve learn_batch_step_keeps_valid_out_dim : frames.

Lemma learn_epoch_keeps_valid_out_dim name mode train_loader val_loader epoch :
  keeps same_valid_out_dim
        (learn_epoch name mode train_loader val_loader epoch).
Proof. unfold learn_epoch. keeps_tac. Qed.

#[local] Hint Resolve learn_epoch_keeps_valid_out_dim : frames.

Lemma learn_batch_keeps_valid_out_dim name train_loader val_loader :
  keeps same_valid_out_dim (learn_batch name train_loader val_loader).
Proof. unfold learn_batch. keeps_tac. Qed.

End MethodFrames.

(** ** The valid_out_dim state machine *)

Section ValidOutDim.

Context {T : Torch}.

Lemma vod_le_refl (a : ValidOutDim) : vod_le a a.
Proof. destruct a; simpl; [exact I | lia]. Qed.

Lemma vod_le_trans (a b c : ValidOutDim) :
  vod_le a b -> vod_le b c -> vod_le a c.
Proof. destruct a, b, c; simpl; try tauto; lia. Qed.

Lemma add_valid_output_dim_from_ALL (s : NormalNN) (d : Z) :
  valid_out_dim s = ALL ->
  add_valid_output_dim d s
  = (Ok d, set_valid_out_dim (set_valid_out_dim s (Dim 0)) (Dim d)).
Proof.
  intros H. unfold add_valid_output_dim, bind, get, modify, ret.
  rewrite H. reflexivity.
Qed.

Lemma add_valid_output_dim_from_Dim (s : NormalNN) (n d : Z) :
  valid_out_dim s = Dim n ->
  add_valid_output_dim d s = (Ok (n + d), set_valid_out_dim s (Dim (n + d))).
Proof.
  intros H. unfold add_valid_output_dim, bind, get, modify, ret.
  rewrite H. cbn. rewrite H. reflexivity.
Qed.

Lemma NormalNN_init_valid_out_dim (mode : string) (cfg : Config) (s : NormalNN) :
  NormalNN_init mode cfg = Ok s -> valid_out_dim s = ALL.
Proof.
  unfold NormalNN_init. intros H.
  destruct (create_model cfg); [|discriminate].
  destruct (getitem (gpuid cfg) 0); [|discriminate].
  cbn [res_bind] in H.
  destruct (optimizer_arg cfg) as [c arg].
  destruct (new_optimizer (optimizer_name c) arg (schedule c) a); [|discriminate].
  cbn [res_bind] in H. injection H as <-. reflexivity.
Qed.

(** One call never leads back to ALL nor down. *)
Lemma run_call_vod_le (c : Call) (s : NormalNN) :
  positive_dim c ->
  vod_le (valid_out_dim s) (valid_out_dim (run_call c s)).
Proof.
  intros Hpos.
  assert (Hsame : forall A (m : M A),
             keeps same_valid_out_dim m ->
             vod_le (valid_out_dim s) (valid_out_dim (snd (m s)))).
  { intros A m Hm. rewrite (Hm s). apply vod_le_refl. }
  destruct c; cbn [run_call].
  - simpl in Hpos. destruct (valid_out_dim s) as [|n] eqn:E.
    + exact I.
    + rewrite (add_valid_output_dim_from_Dim s n dim E). simpl. lia.
  - apply Hsame, init_optimizer_keeps_valid_out_dim.
  - apply Hsame, predict_keeps_valid_out_dim.
  - apply Hsame, validation_keeps_valid_out_dim.
  - apply Hsame, update_model_keeps_valid_out_dim.
  - apply Hsame, learn_batch_keeps_valid_out_dim.
  - apply vod_le_refl.
Qed.

Lemma run_calls_app (cs1 cs2 : list Call) (s : NormalNN) :
  run_calls (cs1 ++ cs2) s = run_calls cs2 (run_calls cs1 s).
Proof. unfold run_calls. apply fold_left_app. Qed.

Lemma run_calls_vod_le (cs : list Call) :
  Forall positive_dim cs ->
  forall s, vod_le (valid_out_dim s) (valid_out_dim (run_calls cs s)).
Proof.
  induction 1 as [|c cs Hc _ IH]; intros s.
  - apply vod_le_refl.
  - eapply vod_le_trans; [apply (run_call_vod_le c s Hc)|].
    apply IH.
Qed.

(** C2.  [valid_out_dim] starts as ALL.  [add_valid_output_dim d] takes
    ALL to the integer d, by way of 0, and an integer n to n + d.  Over any
    sequence of calls whose added counts are positive, a later state is
    never ALL once an earlier one is an integer, and never a smaller
    integer. *)
Theorem valid_out_dim_state_machine (mode : string) (cfg : Config)
    (s0 : NormalNN) (cs1 cs2 : list Call) :
  NormalNN_init mode cfg = Ok s0 ->
  Forall positive_dim (cs1 ++ cs2) ->
  valid_out_dim s0 = ALL
  /\ (forall s d, 0 < d -> valid_out_dim s = ALL ->
        add_valid_output_dim d s
        = (Ok d, set_valid_out_dim (set_valid_out_dim s (Dim 0)) (Dim (0 + d))))
  /\ (forall s n d, 0 < d -> valid_out_dim s = Dim n ->
        add_valid_output_dim d s
        = (Ok (n + d), set_valid_out_dim s (Dim (n + d))))
  /\ vod_le (valid_out_dim (run_calls cs1 s0))
            (valid_out_dim (run_calls (cs1 ++ cs2) s0)).
Proof.
  intros Hinit Hpos. split; [|split; [|split]].
  - exact (NormalNN_init_valid_out_dim mode cfg s0 Hinit).
  - intros s d _ H. exact (add_valid_output_dim_from_ALL s d H).
  - intros s n d _ H. exact (add_valid_output_dim_from_Dim s n d H).
  - rewrite run_calls_app. apply run_calls_vod_le.
    apply Forall_app in Hpos. tauto.
Qed.

(** C8.  [learn_stream] raises its assertion for every input and leaves
    the agent as it was. *)
Theorem learn_stream_always_fails (D L : Type) (data : D) (label : L)
    (s : NormalNN) :
  learn_stream data label s
  = (Raise (AssertionError "No implementation yet"), s).
Proof. reflexivity. Qed.

(** C10.  The parameter defaults to 0 and the method returns the new
    value.  Called with the default on the sentinel ALL it returns 0 and
    leaves the integer 0, so the sentinel is gone and the single-head loss
    that follows is computed on rows of no columns. *)
Theorem add_valid_output_dim_default_loses_sentinel (s : NormalNN) :
  valid_out_dim s = ALL ->
  add_valid_output_dim_default = add_valid_output_dim 0
  /\ exists s',
       add_valid_output_dim_default s = (Ok 0, s')
       /\ valid_out_dim s' = Dim 0
       /\ forall preds pred targets tasks fn,
            multihead s = false ->
            criterion_fn s = Some fn ->
            preds_contains preds "All" = true ->
            preds_get preds "All" = Ok pred ->
            criterion s' preds targets tasks
            = Ok (TScalar (loss_call fn (map (fun _ => []) pred) targets)).
Proof.
  intros H. split; [reflexivity|].
  unfold add_valid_output_dim_default.
  rewrite (add_valid_output_dim_from_ALL s 0 H).
  eexists; split; [reflexivity|]. split; [reflexivity|].
  intros preds pred targets tasks fn Hm Hfn Hall Hget.
  unfold criterion. cbn [multihead set_valid_out_dim valid_out_dim].
  rewrite Hm, Hall, Hget. cbn [res_bind].
  unfold getattr_criterion_fn. cbn [criterion_fn set_valid_out_dim].
  rewrite Hfn. reflexivity.
Qed.

End ValidOutDim.

(** The run of the specification: from ALL, adding 10 gives 10 and adding
    5 more gives 15; a validation pass in between changes nothing. *)
Lemma valid_out_dim_state_machine_example :
  valid_out_dim Example.agent = ALL
  /\ valid_out_dim (run_calls [CallAddValidOutputDim 10] Example.agent)
     = Dim 10
  /\ valid_out_dim
       (run_calls [CallAddValidOutputDim 10;
                   CallValidation "mrpc" Example.loader;
                   CallAddValidOutputDim 5] Example.agent)
     = Dim 15
  /\ vod_le (valid_out_dim (run_calls [CallAddValidOutputDim 10] Example.agent))
            (valid_out_dim
               (run_calls ([CallAddValidOutputDim 10]
                           ++ [CallValidation "mrpc" Example.loader;
                               CallAddValidOutputDim 5]) Example.agent)).
Proof.
  destruct (valid_out_dim_state_machine
              "classification" Example.agent_config Example.agent
              [CallAddValidOutputDim 10]
              [CallValidation "mrpc" Example.loader; CallAddValidOutputDim 5])
    as (H0 & _ & _ & Hle).
  - reflexivity.
  - repeat constructor.
  - split; [exact H0|]. split; [reflexivity|]. split; [reflexivity|].
    exact Hle.
Defined.

(** The default call on the fresh agent, and the loss after it. *)
Lemma add_valid_output_dim_default_example :
  exists s',
    add_valid_output_dim_default Example.regression_agent = (Ok 0, s')
    /\ valid_out_dim s' = Dim 0
    /\ criterion s' (PDict Example.all_preds) Example.two_targets
                 ["All"; "All"]
       = Ok (TScalar (Example.squared_error [[]; []] Example.two_targets)).
Proof.
  destruct (add_valid_output_dim_default_loses_sentinel
              Example.regression_agent eq_refl)
    as (_ & s' & Hrun & Hdim & Hloss).
  exists s'. split; [exact Hrun|]. split; [exact Hdim|].
  exact (Hloss (PDict Example.all_preds) _ Example.two_targets
               ["All"; "All"] MSELoss eq_refl eq_refl eq_refl eq_refl).
Defined.

(** ** Tasks without samples in the batch *)

Section EmptyTask.

Context {T : Torch}.

Lemma criterion_tasks_app (s : NormalNN) (targets : Targets)
    (tasks : TaskLabels) (l1 l2 : list (string * Tensor)) :
  forall loss,
    criterion_tasks s targets tasks loss (l1 ++ l2)
    = res_bind (criterion_tasks s targets tasks loss l1)
               (fun loss' => criterion_tasks s targets tasks loss' l2).
Proof.
  induction l1 as [|kv l1 IH]; intros loss.
  - reflexivity.
  - rewrite <- app_comm_cons, !criterion_tasks_cons.
    destruct (criterion_task s targets tasks loss kv); [|reflexivity].
    cbn [res_bind]. apply IH.
Qed.

Lemma accumulate_tasks_app (metric : Tensor -> Targets -> Q)
    (target : Targets) (task : TaskLabels) (l1 l2 : list (string * Tensor)) :
  forall meter,
    accumulate_tasks metric target task meter (l1 ++ l2)
    = res_bind (accumulate_tasks metric target task meter l1)
               (fun meter' => accumulate_tasks metric target task meter' l2).
Proof.
  induction l1 as [|kv l1 IH]; intros meter.
  - reflexivity.
  - rewrite <- app_comm_cons. cbn [accumulate_tasks].
    destruct (accumulate_task metric target task meter kv); [|reflexivity].
    cbn [res_bind]. apply IH.
Qed.

Lemma criterion_task_skips (s : NormalNN) (targets : Targets)
    (tasks : TaskLabels) (loss : Scalar) (t : string) (t_preds : Tensor) :
  task_inds tasks t = [] ->
  criterion_task s targets tasks loss (t, t_preds) = Ok loss.
Proof. intros H. unfold criterion_task. now rewrite H. Qed.

Lemma accumulate_task_skips (metric : Tensor -> Targets -> Q)
    (target : Targets) (task : TaskLabels) (meter : AverageMeter.t)
    (t : string) (t_out : Tensor) :
  task_inds task t = [] ->
  accumulate_task metric target task meter (t, t_out) = Ok meter.
Proof. intros H. unfold accumulate_task. now rewrite H. Qed.

Lemma dict_has_app {V} (l1 l2 : list (string * V)) (key : string) :
  dict_has (l1 ++ l2) key = dict_has l1 key || dict_has l2 key.
Proof. unfold dict_has. apply existsb_app. Qed.

Lemma accumulate_without (metric : Tensor -> Targets -> Q)
    (target : Targets) (task : TaskLabels) (meter : AverageMeter.t)
    (t : string) (t_out : Tensor) (before after : list (string * Tensor)) :
  task_inds task t = [] ->
  dict_has (before ++ (t, t_out) :: after) "All" = false ->
  accumulate metric (PDict (before ++ (t, t_out) :: after)) target task meter
  = accumulate metric (PDict (before ++ after)) target task meter.
Proof.
  intros Hinds Hall. unfold accumulate. rewrite Hall.
  assert (Hall' : dict_has (before ++ after) "All" = false).
  { rewrite dict_has_app in *. apply orb_false_iff in Hall as [H1 H2].
    rewrite H1. simpl in H2. apply orb_false_iff in H2 as [_ H2].
    exact H2. }
  rewrite Hall', !accumulate_tasks_app. cbn [accumulate_tasks].
  destruct (accumulate_tasks metric target task meter before); [|reflexivity].
  cbn [res_bind]. now rewrite (accumulate_task_skips _ _ _ _ _ _ Hinds).
Qed.

Lemma criterion_tasks_without (s : NormalNN) (targets : Targets)
    (tasks : TaskLabels) (loss : Scalar) (t : string) (t_preds : Tensor)
    (before after : list (string * Tensor)) :
  task_inds tasks t = [] ->
  criterion_tasks s targets tasks loss (before ++ (t, t_preds) :: after)
  = criterion_tasks s targets tasks loss (before ++ after).
Proof.
  intros Hinds. rewrite !criterion_tasks_app.
  destruct (criterion_tasks s targets tasks loss before); [|reflexivity].
  cbn [res_bind].
  now rewrite criterion_tasks_cons, (criterion_task_skips _ _ _ _ _ _ Hinds).
Qed.

(** C4.  In a multi-head batch, a task of the prediction map with no
    matching sample leaves the running loss of [criterion] as it is, so the
    loss returned is the one of the map without that task; and the
    accumulation helpers return the meter they would without it, the
    round for that task handing the meter back untouched. *)
Theorem empty_task_contributes_nothing (s : NormalNN) (targets : Targets)
    (tasks : TaskLabels) (t : string) (t_preds : Tensor)
    (before after : list (string * Tensor)) :
  multihead s = true ->
  dict_has (before ++ (t, t_preds) :: after) "All" = false ->
  task_inds tasks t = [] ->
  (forall loss, criterion_task s targets tasks loss (t, t_preds) = Ok loss)
  /\ criterion s (PDict (before ++ (t, t_preds) :: after)) targets tasks
     = criterion s (PDict (before ++ after)) targets tasks
  /\ (forall metric meter,
        accumulate_task metric targets tasks meter (t, t_preds) = Ok meter)
  /\ (forall meter,
        accumulate_acc (PDict (before ++ (t, t_preds) :: after))
                       targets tasks meter
        = accumulate_acc (PDict (before ++ after)) targets tasks meter
        /\ accumulate_mcc (PDict (before ++ (t, t_preds) :: after))
                          targets tasks meter
           = accumulate_mcc (PDict (before ++ after)) targets tasks meter
        /\ accumulate_corr (PDict (before ++ (t, t_preds) :: after))
                           targets tasks meter
           = accumulate_corr (PDict (before ++ after)) targets tasks meter).
Proof.
  intros Hm Hall Hinds. split; [|split; [|split]].
  - intros loss. now apply criterion_task_skips.
  - unfold criterion. rewrite Hm. cbn [preds_items res_bind].
    now rewrite (criterion_tasks_without _ _ _ _ _ _ _ _ Hinds).
  - intros metric meter. now apply accumulate_task_skips.
  - intros meter. unfold accumulate_acc, accumulate_mcc, accumulate_corr.
    repeat split; now apply accumulate_without.
Qed.

End EmptyTask.

(** The mixed batch with a third head C that has no sample: loss and meter
    are those of the batch without C. *)
Lemma empty_task_example :
  task_inds Example.mixed_tasks "C" = []
  /\ criterion Example.two_head_agent
       (PDict ([("A", Example.head_A)] ++ ("C", Example.idle_head)
               :: [("B", Example.head_B)]))
       Example.mixed_targets Example.mixed_tasks
     = criterion Example.two_head_agent
         (PDict ([("A", Example.head_A)] ++ [("B", Example.head_B)]))
         Example.mixed_targets Example.mixed_tasks
  /\ accumulate_acc (T := Example.torch)
       (PDict ([("A", Example.head_A)] ++ ("C", Example.idle_head)
               :: [("B", Example.head_B)]))
       Example.mixed_targets Example.mixed_tasks AverageMeter.reset
     = accumulate_acc (T := Example.torch)
         (PDict ([("A", Example.head_A)] ++ [("B", Example.head_B)]))
         Example.mixed_targets Example.mixed_tasks AverageMeter.reset.
Proof.
  split; [reflexivity|].
  destruct (empty_task_contributes_nothing
              Example.two_head_agent Example.mixed_targets Example.mixed_tasks
              "C" Example.idle_head
              [("A", Example.head_A)] [("B", Example.head_B)]
              eq_refl eq_refl eq_refl)
    as (_ & Hloss & _ & Hmeter).
  split; [exact Hloss|].
  exact (proj1 (Hmeter AverageMeter.reset)).
Defined.


(** ** validation *)

(** Unfolds the monad in a run that returned and splits on everything the
    run branched on. *)
Ltac split_run H :=
  unfold bind, modify, get, lift, ret, raise in H;
  cbn beta iota in H;
  repeat match type of H with
         | context [match ?x with _ => _ end] =>
             destruct x eqn:?; try discriminate
         end.

Section ValidationFacts.

Context {T : Torch}.

Lemma validation_loop_keeps_pass created dataloader meter :
  keeps same_pass (foldM (validation_batch created) dataloader meter).
Proof.
  apply keeps_foldM;
    [ exact same_pass_refl | exact same_pass_trans
    | intros; apply validation_batch_keeps_pass ].
Qed.

(** A pass that returns has put both mode flags to the agent's flag of
    before, assigned the loss of [val_name]'s branch, and logged itself. *)
Lemma validation_returns val_name dataloader s r s' :
  validation val_name dataloader s = (Ok r, s') ->
  training s' = training s
  /\ model_training s' = training s
  /\ (exists mode,
        dict_get output_modes val_name = Ok mode
        /\ criterion_fn s'
           = match metric_branch val_name mode with
             | Some Corr => Some MSELoss
             | Some _ => Some CrossEntropyLoss
             | None => criterion_fn s
             end)
  /\ calls s' = calls s ++ [EvValidation val_name].
Proof.
  intros H. unfold validation in H.
  unfold bind, modify, get, lift, ret, raise in H.
  cbn beta iota in H.
  destruct (dict_get output_modes val_name) as [mode|e] eqn:Emode;
    [|discriminate].
  destruct (metric_branch val_name mode) as [[| |]|] eqn:Ecreated;
    cbn beta iota in H.
  all: match type of H with
       | context [foldM (validation_batch ?c) ?l ?m ?s0] =>
           pose proof (validation_loop_keeps_pass c l m s0) as Hk;
           destruct (foldM (validation_batch c) l m s0) as [[meter|e] s4];
           [|discriminate]
       end.
  all: repeat match type of H with
       | context [match ?x with _ => _ end] => destruct x; try discriminate
       end.
  all: injection H as _ <-.
  all: destruct Hk as (_ & Ht & Hc & Hl); cbn in *.
  all: rewrite Hc, Hl.
  all: repeat split; try reflexivity.
  all: exists mode; split; [reflexivity | now rewrite Ecreated].
Qed.

(** C5 (as the code has it).  After [validation] returns, the agent's
    training flag is the one of before the call and the wrapped network's
    flag is set to it; [valid_out_dim], the optimizer and scheduler, the
    weights and the configuration are those of before; [criterion_fn] has
    been assigned the loss of [val_name]'s branch (cross entropy, or mean
    squared error for a regression task). *)
Theorem validation_frame val_name dataloader s r s' :
  validation val_name dataloader s = (Ok r, s') ->
  training s' = training s
  /\ model_training s' = training s
  /\ valid_out_dim s' = valid_out_dim s
  /\ optimizer s' = optimizer s
  /\ model s' = model s
  /\ config s' = config s
  /\ multihead s' = multihead s
  /\ (exists mode,
        dict_get output_modes val_name = Ok mode
        /\ criterion_fn s'
           = match metric_branch val_name mode with
             | Some Corr => Some MSELoss
             | Some _ => Some CrossEntropyLoss
             | None => criterion_fn s
             end).
Proof.
  intros H.
  destruct (validation_returns val_name dataloader s r s' H)
    as (Ht & Hmt & Hfn & _).
  pose proof (validation_keeps_core val_name dataloader s) as Hcore.
  rewrite H in Hcore. cbn [snd] in Hcore.
  unfold same_core in Hcore. decompose [and] Hcore.
  repeat split; assumption.
Qed.

End ValidationFacts.

(** A validation pass on a classification task, run on an agent set up
    for regression, returns and leaves cross entropy configured. *)
Lemma validation_reassigns_criterion_fn :
  fst (validation "mrpc" Example.loader Example.regression_agent)
  = Ok (Some (4 # 6)%Q)
  /\ criterion_fn Example.regression_agent = Some MSELoss
  /\ criterion_fn
       (snd (validation "mrpc" Example.loader Example.regression_agent))
     = Some CrossEntropyLoss.
Proof.
  split; [vm_compute; reflexivity|].
  split; [reflexivity | vm_compute; reflexivity].
Qed.

(** The same pass, through the theorem. *)
Lemma validation_frame_example :
  let s' := snd (validation "mrpc" Example.loader Example.regression_agent) in
  training s' = true
  /\ model_training s' = true
  /\ valid_out_dim s' = ALL
  /\ optimizer s' = optimizer Example.regression_agent
  /\ criterion_fn s' = Some CrossEntropyLoss.
Proof.
  intros s'.
  assert (F : fst (validation "mrpc" Example.loader Example.regression_agent)
              = Ok (Some (4 # 6)%Q))
    by (vm_compute; reflexivity).
  pose proof (surjective_pairing
                (validation "mrpc" Example.loader Example.regression_agent))
    as E.
  rewrite F in E. fold s' in E.
  destruct (validation_frame
              "mrpc" Example.loader Example.regression_agent
              (Some (4 # 6)%Q) s' E)
    as (Ht & Hmt & Hv & Ho & _ & _ & _ & mode & Hmode & Hfn).
  split; [exact Ht|]. split; [exact Hmt|]. split; [exact Hv|].
  split; [exact Ho|].
  injection Hmode as <-. exact Hfn.
Defined.

(** ** learn_batch *)

Section LearnBatchFacts.

Context {T : Torch}.

Lemma bind_returns {A B} (m : M A) (k : A -> M B) s b s2 :
  bind m k s = (Ok b, s2) ->
  exists a s1, m s = (Ok a, s1) /\ k a s1 = (Ok b, s2).
Proof.
  unfold bind. destruct (m s) as [[a|e] s1]; intros H.
  - now exists a, s1.
  - discriminate.
Qed.

Lemma update_model_returns inputs targets tasks s r s' :
  update_model inputs targets tasks s = (Ok r, s') ->
  calls s' = calls s ++ [EvOptimizerStep].
Proof.
  intros H. unfold update_model in H. split_run H.
  injection H as _ <-. reflexivity.
Qed.

Lemma learn_batch_step_returns created n meters ib s r s' :
  learn_batch_step created n meters ib s = (Ok r, s') ->
  calls s' = calls s ++ [EvOptimizerStep].
Proof.
  intros H. unfold learn_batch_step in H.
  destruct ib as [i [[input target] task]]. destruct meters as [losses meter].
  apply bind_returns in H as (s0 & s1 & Hget & H).
  injection Hget as <- <-.
  apply bind_returns in H as (input' & s1 & Hdev & H).
  assert (s1 = s) as ->.
  { destruct (gpu s); unfold lift, ret in Hdev; now injection Hdev. }
  apply bind_returns in H as ([loss output] & s2 & Hupd & H).
  apply update_model_returns in Hupd.
  rewrite <- Hupd. clear Hupd Hdev.
  split_run H.
  all: destruct input'; try discriminate.
  all: repeat match goal with
              | E : (_, _) = (_, _) |- _ =>
                  injection E; intros; subst; clear E
              end.
  all: reflexivity.
Qed.

Lemma learn_loop_returns created n (l : list (Z * Batch)) :
  forall meters s r s',
    foldM (learn_batch_step created n) l meters s = (Ok r, s') ->
    calls s' = calls s ++ repeat EvOptimizerStep (List.length l).
Proof.
  induction l as [|ib l IH]; intros meters s r s' H.
  - injection H as _ <-. simpl. now rewrite app_nil_r.
  - cbn [foldM] in H.
    apply bind_returns in H as (meters' & s1 & Hstep & H).
    apply learn_batch_step_returns in Hstep.
    apply IH in H. rewrite H, Hstep, <- app_assoc. reflexivity.
Qed.

Lemma enumerate_length {A} (l : list A) :
  List.length (enumerate l) = List.length l.
Proof.
  unfold enumerate.
  rewrite length_combine, length_map, length_seq. lia.
Qed.

Lemma learn_epoch_returns name mode train_loader val_loader epoch s r s' :
  learn_epoch name mode train_loader val_loader epoch s = (Ok r, s') ->
  calls s'
  = calls s
    ++ epoch_calls name (List.length train_loader)
         (match val_loader with Some _ => true | None => false end) epoch.
Proof.
  intros H. unfold learn_epoch in H.
  apply bind_returns in H as (u1 & s1 & H1 & H). injection H1 as _ <-.
  apply bind_returns in H as (u2 & s2 & H2 & H). injection H2 as _ <-.
  apply bind_returns in H as (u3 & s3 & H3 & H). injection H3 as _ <-.
  apply bind_returns in H as (meters & s4 & Hloop & H).
  apply learn_loop_returns in Hloop. rewrite enumerate_length in Hloop.
  apply bind_returns in H as (u5 & s5 & Hsum & H).
  assert (s5 = s4) as ->.
  { destruct (metric_branch name mode); split_run Hsum;
      now injection Hsum. }
  assert (Hval : calls s'
                 = calls s4
                   ++ (if match val_loader with Some _ => true | None => false end
                       then [EvValidation name] else [])).
  { destruct val_loader as [loader|].
    - apply bind_returns in H as (v & s6 & Hv & H).
      apply validation_returns in Hv as (_ & _ & _ & Hv).
      injection H as _ <-. exact Hv.
    - injection H as _ <-. now rewrite app_nil_r. }
  rewrite Hval, Hloop. cbn [calls record_call set_model_training set_optimizer].
  unfold epoch_calls. rewrite <- !app_assoc. reflexivity.
Qed.

Lemma learn_epochs_return name mode train_loader val_loader (epochs : list Z) :
  forall s r s',
    for_each (learn_epoch name mode train_loader val_loader) epochs s
    = (Ok r, s') ->
    calls s'
    = calls s
      ++ flat_map
           (epoch_calls name (List.length train_loader)
              (match val_loader with Some _ => true | None => false end))
           epochs.
Proof.
  induction epochs as [|e epochs IH]; intros s r s' H.
  - injection H as _ <-. simpl. now rewrite app_nil_r.
  - cbn [for_each] in H.
    apply bind_returns in H as (u & s1 & He & H).
    apply learn_epoch_returns in He. apply IH in H.
    rewrite H, He, <- app_assoc. reflexivity.
Qed.

Lemma optimizer_arg_schedule (c : Config) :
  schedule (fst (optimizer_arg c)) = schedule c.
Proof.
  unfold optimizer_arg.
  repeat match goal with
         | |- context [if ?b then _ else _] => destruct b
         end; reflexivity.
Qed.

Lemma init_optimizer_returns s r s' :
  init_optimizer s = (Ok r, s') ->
  calls s' = calls s ++ [EvInitOptimizer]
  /\ schedule (config s') = schedule (config s).
Proof.
  intros H. unfold init_optimizer in H.
  pose proof (optimizer_arg_schedule (config s)) as Hs.
  split_run H. cbn [fst] in Hs.
  injection H as _ <-. split; [reflexivity | exact Hs].
Qed.

(** [learn_batch] that returns has made exactly the calls of its epochs,
    after the optimizer reset if one was due. *)
Lemma learn_batch_returns name train_loader val_loader s r s' last :
  getitem_last (schedule (config s)) = Ok last ->
  learn_batch name train_loader val_loader s = (Ok r, s') ->
  calls s'
  = calls s
    ++ (if reset_optimizer s then [EvInitOptimizer] else [])
    ++ flat_map
         (epoch_calls name (List.length train_loader)
            (match val_loader with Some _ => true | None => false end))
         (py_range last).
Proof.
  intros Hlast H. unfold learn_batch in H.
  apply bind_returns in H as (s0 & s1 & Hget & H). injection Hget as <- <-.
  apply bind_returns in H as (u & s1 & Hreset & H).
  assert (Hs1 : calls s1
                = calls s ++ (if reset_optimizer s then [EvInitOptimizer] else [])
                /\ schedule (config s1) = schedule (config s)).
  { destruct (reset_optimizer s).
    - now apply init_optimizer_returns in Hreset.
    - injection Hreset as _ <-. now rewrite app_nil_r. }
  destruct Hs1 as [Hcalls Hsched].
  apply bind_returns in H as (mode & s2 & Hmode & H).
  unfold lift in Hmode.
  assert (s2 = s1) as -> by now injection Hmode.
  apply bind_returns in H as (u2 & s3 & Hfn & H).
  assert (Hs3 : calls s3 = calls s1 /\ config s3 = config s1).
  { destruct (String.eqb mode "classification");
      [|destruct (String.eqb mode "regression")];
      injection Hfn as _ <-; split; reflexivity. }
  destruct Hs3 as [Hcalls3 Hconfig3].
  apply bind_returns in H as (s4 & s5 & Hget & H). injection Hget as <- <-.
  apply bind_returns in H as (last' & s6 & Hl & H).
  unfold lift in Hl. rewrite Hconfig3, Hsched, Hlast in Hl.
  injection Hl as <- <-.
  apply learn_epochs_return in H.
  rewrite H, Hcalls3, Hcalls, <- app_assoc. reflexivity.
Qed.

End LearnBatchFacts.

Section EpochCounts.

Context {T : Torch}.

Lemma filter_repeat_false {A} (p : A -> bool) (a : A) (n : nat) :
  p a = false -> filter p (repeat a n) = [].
Proof.
  intros H. induction n as [|n IH]; simpl; [reflexivity|].
  now rewrite H.
Qed.

Lemma epoch_calls_epochs name n validates (epochs : list Z) :
  filter is_epoch (flat_map (epoch_calls name n validates) epochs)
  = map EvEpoch epochs.
Proof.
  induction epochs as [|e epochs IH]; [reflexivity|].
  cbn [flat_map map]. rewrite filter_app, IH. unfold epoch_calls.
  rewrite !filter_app, filter_repeat_false by reflexivity.
  destruct validates; reflexivity.
Qed.

Lemma epoch_calls_scheduler_steps name n validates (epochs : list Z) :
  filter is_scheduler_step (flat_map (epoch_calls name n validates) epochs)
  = map EvSchedulerStep epochs.
Proof.
  induction epochs as [|e epochs IH]; [reflexivity|].
  cbn [flat_map map]. rewrite filter_app, IH. unfold epoch_calls.
  rewrite !filter_app, filter_repeat_false by reflexivity.
  destruct validates; reflexivity.
Qed.

Lemma epoch_calls_validations name n validates (epochs : list Z) :
  filter is_validation (flat_map (epoch_calls name n validates) epochs)
  = if validates then map (fun _ => EvValidation name) epochs else [].
Proof.
  induction epochs as [|e epochs IH].
  - now destruct validates.
  - cbn [flat_map map]. rewrite filter_app, IH. unfold epoch_calls.
    rewrite !filter_app, filter_repeat_false by reflexivity.
    destruct validates; reflexivity.
Qed.

Lemma py_range_spec (n e : Z) : In e (py_range n) <-> 0 <= e < n.
Proof.
  unfold py_range. rewrite in_map_iff. split.
  - intros (k & <- & Hk). apply in_seq in Hk. lia.
  - intros H. exists (Z.to_nat e). split; [lia|]. apply in_seq. lia.
Qed.

Lemma py_range_length (n : Z) : List.length (py_range n) = Z.to_nat n.
Proof. unfold py_range. now rewrite length_map, length_seq. Qed.

(** C6 (as the code has it).  For a schedule whose last element is
    [last_milestone], a [learn_batch] that returns has run one training
    pass for each epoch index e with 0 <= e < last_milestone, in order;
    stepped the scheduler once in each, with that index; and called
    [validation] once in each when a validation loader was given, and
    never otherwise. *)
Theorem learn_batch_epochs name train_loader val_loader s s' last_milestone :
  getitem_last (schedule (config s)) = Ok last_milestone ->
  learn_batch name train_loader val_loader s = (Ok tt, s') ->
  exists new,
    calls s'
    = calls s ++ (if reset_optimizer s then [EvInitOptimizer] else []) ++ new
    /\ filter is_epoch new = map EvEpoch (py_range last_milestone)
    /\ filter is_scheduler_step new
       = map EvSchedulerStep (py_range last_milestone)
    /\ filter is_validation new
       = match val_loader with
         | Some _ => map (fun _ => EvValidation name) (py_range last_milestone)
         | None => []
         end
    /\ (forall e, In e (py_range last_milestone) <-> 0 <= e < last_milestone)
    /\ List.length (py_range last_milestone) = Z.to_nat last_milestone.
Proof.
  intros Hlast H.
  eexists. split.
  - exact (learn_batch_returns name train_loader val_loader s tt s'
             last_milestone Hlast H).
  - split; [apply epoch_calls_epochs|].
    split; [apply epoch_calls_scheduler_steps|].
    split; [rewrite epoch_calls_validations; now destruct val_loader|].
    split; [apply py_range_spec | apply py_range_length].
Qed.

End EpochCounts.

(** With the schedule [[1]] the last milestone is 1, and the run that
    returns has trained for epoch 0 alone: no pass carries the index 1 of
    the closed range from 0 to 1. *)
Lemma learn_batch_schedule_one :
  fst (learn_batch "mrpc" Example.loader (Some Example.loader) Example.agent)
  = Ok tt
  /\ getitem_last (schedule (config Example.agent)) = Ok 1
  /\ filter is_epoch
       (calls (snd (learn_batch "mrpc" Example.loader (Some Example.loader)
                                Example.agent)))
     = [EvEpoch 0]
  /\ existsb (Event_eqb (EvEpoch 1))
       (calls (snd (learn_batch "mrpc" Example.loader (Some Example.loader)
                                Example.agent)))
     = false.
Proof.
  split; [vm_compute; reflexivity|].
  split; [reflexivity|].
  split; vm_compute; reflexivity.
Qed.

(** The same run, through the theorem: one scheduler step and one
    validation. *)
Lemma learn_batch_epochs_example :
  let s' := snd (learn_batch "mrpc" Example.loader (Some Example.loader)
                             Example.agent) in
  exists new,
    calls s' = calls Example.agent ++ new
    /\ filter is_epoch new = [EvEpoch 0]
    /\ filter is_scheduler_step new = [EvSchedulerStep 0]
    /\ filter is_validation new = [EvValidation "mrpc"].
Proof.
  intros s'.
  assert (F : fst (learn_batch "mrpc" Example.loader (Some Example.loader)
                               Example.agent)
              = Ok tt)
    by (vm_compute; reflexivity).
  pose proof (surjective_pairing
                (learn_batch "mrpc" Example.loader (Some Example.loader)
                             Example.agent))
    as E.
  rewrite F in E. fold s' in E.
  destruct (learn_batch_epochs "mrpc" Example.loader (Some Example.loader)
              Example.agent s' 1 eq_refl E)
    as (new & Hcalls & He & Hs & Hv & _).
  exists new. split; [exact Hcalls|].
  split; [exact He|]. split; [exact Hs | exact Hv].
Defined.

(** * Further properties of the code *)

(** ** The task router *)

Section Router.

Context {T : Torch}.

Lemma filter_seq_sorted (p : nat -> bool) (n : nat) :
  forall a, StronglySorted lt (filter p (seq a n))
            /\ Forall (fun i => (a <= i)%nat) (filter p (seq a n)).
Proof.
  induction n as [|n IH]; intros a; cbn [seq filter].
  - split; constructor.
  - destruct (IH (S a)) as [Hs Hf].
    assert (Hf' : Forall (fun i => (a <= i)%nat) (filter p (seq (S a) n))).
    { eapply Forall_impl; [|exact Hf]. cbn. intros i Hi. lia. }
    destruct (p a).
    + split; constructor; try assumption; try lia.
    + split; assumption.
Qed.

(** X1.  The index list built for a task holds exactly the positions whose
    label is that task, in increasing order and without repeats; the
    lists of two different tasks share no position. *)
Theorem task_inds_spec (tasks : TaskLabels) (t : string) :
  (forall i, In i (task_inds tasks t) <-> nth_error tasks i = Some t)
  /\ StronglySorted lt (task_inds tasks t)
  /\ (forall t' i, t' <> t ->
        In i (task_inds tasks t) -> ~ In i (task_inds tasks t')).
Proof.
  assert (Hin : forall u i,
             In i (task_inds tasks u) <-> nth_error tasks i = Some u).
  { intros u i. unfold task_inds, label_at. rewrite filter_In, in_seq. split.
    - intros [_ H]. destruct (nth_error tasks i) as [x|]; [|discriminate].
      apply String.eqb_eq in H. now subst.
    - intros H. split.
      + assert (i < List.length tasks)%nat; [|lia].
        apply nth_error_Some. congruence.
      + rewrite H. apply String.eqb_refl. }
  split; [apply Hin|]. split.
  - apply filter_seq_sorted.
  - intros t' i Hne H1 H2. apply Hin in H1. apply Hin in H2. congruence.
Qed.

Lemma index_select_out_of_range {A} (l : list A) (inds : list nat) (i : nat) :
  In i inds -> (List.length l <= i)%nat ->
  index_select l inds = Raise IndexError.
Proof.
  intros Hin Hi. induction inds as [|j inds IH]; [contradiction|].
  cbn [index_select]. unfold getitem at 1.
  destruct (nth_error l j) as [a|] eqn:E; [|reflexivity].
  destruct Hin as [->|Hin].
  - apply nth_error_None in Hi. congruence.
  - cbn [res_bind]. now rewrite (IH Hin).
Qed.

Lemma index_select_in_range {A} (l : list A) (inds : list nat) :
  Forall (fun i => (i < List.length l)%nat) inds ->
  exists r, index_select l inds = Ok r.
Proof.
  induction 1 as [|i inds Hi _ [r IH]]; [now exists []|].
  cbn [index_select]. unfold getitem.
  destruct (nth_error l i) as [a|] eqn:E.
  - cbn [res_bind]. rewrite IH. now eexists.
  - apply nth_error_None in E. lia.
Qed.

(** X2.  A head that scored fewer rows than the batch has samples of its
    task, or targets shorter than the labels, make the round of the loss
    loop fail with IndexError: the selection [t_preds[inds]], then
    [targets[inds]], reaches a position that is not there. *)
Theorem criterion_task_index_error (s : NormalNN) (targets : Targets)
    (tasks : TaskLabels) (loss : Scalar) (t : string) (t_preds : Tensor)
    (i : nat) :
  nth_error tasks i = Some t ->
  (List.length t_preds <= i)%nat
  \/ (List.length t_preds = List.length tasks
      /\ (List.length targets <= i)%nat) ->
  criterion_task s targets tasks loss (t, t_preds) = Raise IndexError.
Proof.
  intros Hi Hshort.
  assert (Hin : In i (task_inds tasks t)).
  { unfold task_inds, label_at. rewrite filter_In, in_seq. split.
    - assert (i < List.length tasks)%nat; [|lia].
      apply nth_error_Some. congruence.
    - rewrite Hi. apply String.eqb_refl. }
  unfold criterion_task.
  destruct (task_inds tasks t) as [|j inds] eqn:E; [contradiction|].
  cbn [List.length Nat.ltb Nat.leb]. rewrite <- E in *.
  destruct Hshort as [Hp | [Hp Ht]].
  - now rewrite (index_select_out_of_range t_preds _ i Hin Hp).
  - rewrite (task_inds_select t_preds tasks t Hp). cbn [res_bind].
    now rewrite (index_select_out_of_range targets _ i Hin Ht).
Qed.

End Router.

(** A head with two rows for a batch whose third sample is its own. *)
Lemma criterion_task_index_error_example :
  criterion_task Example.two_head_agent Example.mixed_targets
                 Example.mixed_tasks (PyNum 0) ("A", [[1]; [7]]%Q)
  = Raise IndexError.
Proof.
  apply (criterion_task_index_error
           Example.two_head_agent Example.mixed_targets Example.mixed_tasks
           (PyNum 0) "A" [[1]; [7]]%Q 2).
  - reflexivity.
  - left. simpl. lia.
Defined.

(** ** More on criterion *)

Section CriterionMore.

Context {T : Torch}.

Lemma weighted_task_losses_perm (fn : LossFn)
    (items items' : list (string * Tensor)) (targets : Targets)
    (tasks : TaskLabels) :
  Permutation items items' ->
  (weighted_task_losses fn items targets tasks
   == weighted_task_losses fn items' targets tasks)%Q.
Proof.
  induction 1 as [|x l l' _ IH|x y l|l l' l'' _ IH1 _ IH2].
  - reflexivity.
  - rewrite !weighted_task_losses_cons. now rewrite IH.
  - rewrite !weighted_task_losses_cons. ring.
  - now rewrite IH1.
Qed.

(** X4.  The order of the heads in the prediction map does not change the
    multi-head loss: over a batch of N > 0 samples, two maps with the same
    entries in different orders give equal losses. *)
Theorem criterion_multihead_order (s : NormalNN) (fn : LossFn)
    (items items' : list (string * Tensor)) (targets : Targets)
    (tasks : TaskLabels) :
  multihead s = true ->
  criterion_fn s = Some fn ->
  List.length targets = List.length tasks ->
  Forall (fun kv => List.length (snd kv) = List.length tasks) items ->
  (0 < List.length tasks)%nat ->
  Permutation items items' ->
  exists loss loss',
    criterion s (PDict items) targets tasks = Ok loss
    /\ criterion s (PDict items') targets tasks = Ok loss'
    /\ (scalar_value loss == scalar_value loss')%Q.
Proof.
  intros Hm Hfn Htg Hall Hn Hperm.
  assert (Hall' : Forall (fun kv => List.length (snd kv) = List.length tasks)
                         items').
  { eapply Permutation_Forall; eassumption. }
  assert (Hne : targets <> []).
  { intros ->. simpl in Htg. lia. }
  destruct (criterion_tasks_sum s fn targets tasks items Hfn Htg Hall (PyNum 0))
    as (l1 & E1 & V1).
  destruct (criterion_tasks_sum s fn targets tasks items' Hfn Htg Hall' (PyNum 0))
    as (l1' & E1' & V1').
  destruct (div_len_value l1 targets Hne) as (l2 & E2 & V2).
  destruct (div_len_value l1' targets Hne) as (l2' & E2' & V2').
  exists l2, l2'. unfold criterion. rewrite Hm. cbn [preds_items res_bind].
  rewrite E1, E1'. cbn [res_bind].
  split; [exact E2|]. split; [exact E2'|].
  rewrite V2, V2', V1, V1'.
  now rewrite (weighted_task_losses_perm fn items items' targets tasks Hperm).
Qed.

Lemma NormalNN_init_fresh (mode : string) (cfg : Config) (s : NormalNN) :
  NormalNN_init mode cfg = Ok s ->
  criterion_fn s = None
  /\ multihead s = (1 <? List.length (out_dim cfg))%nat
  /\ reset_optimizer s = false
  /\ training s = true.
Proof.
  unfold NormalNN_init. intros H.
  destruct (create_model cfg); [|discriminate].
  destruct (getitem (gpuid cfg) 0); [|discriminate].
  cbn [res_bind] in H.
  destruct (optimizer_arg cfg) as [c arg].
  destruct (new_optimizer (optimizer_name c) arg (schedule c) a); [|discriminate].
  cbn [res_bind] in H. injection H as <-. repeat split.
Qed.

(** X5.  [__init__] assigns no [criterion_fn] (only [learn_batch] and
    [validation] do): on a freshly built single-head agent [criterion]
    raises AttributeError for every predictions value. *)
Theorem criterion_before_learning (mode : string) (cfg : Config)
    (s : NormalNN) (preds : Preds) (targets : Targets) (tasks : TaskLabels) :
  NormalNN_init mode cfg = Ok s ->
  (List.length (out_dim cfg) <= 1)%nat ->
  criterion s preds targets tasks = Raise AttributeError.
Proof.
  intros Hinit Hone.
  destruct (NormalNN_init_fresh mode cfg s Hinit) as (Hfn & Hm & _).
  assert (Hm' : multihead s = false).
  { rewrite Hm. apply Nat.ltb_ge. exact Hone. }
  unfold criterion, getattr_criterion_fn. rewrite Hm', Hfn.
  destruct (preds_contains preds "All") eqn:E; [|reflexivity].
  destruct (preds_contains_get preds "All" E) as (pred & ->).
  reflexivity.
Qed.

Lemma criterion_tasks_valid_out_dim (s : NormalNN) (v : ValidOutDim)
    (targets : Targets) (tasks : TaskLabels) (items : list (string * Tensor)) :
  forall loss,
    criterion_tasks (set_valid_out_dim s v) targets tasks loss items
    = criterion_tasks s targets tasks loss items.
Proof.
  induction items as [|kv items IH]; intros loss; [reflexivity|].
  rewrite !criterion_tasks_cons.
  change (criterion_task (set_valid_out_dim s v) targets tasks loss kv)
    with (criterion_task s targets tasks loss kv).
  destruct (criterion_task s targets tasks loss kv); [|reflexivity].
  cbn [res_bind]. apply IH.
Qed.

(** X7.  Masking by [valid_out_dim] is confined to the single-head "All"
    branch and is void once the count covers the head: in multi-head
    mode the loss is the same for every [valid_out_dim], and in
    single-head mode an integer k no smaller than the width of every row
    gives the loss of the sentinel ALL. *)
Theorem criterion_masking_void (s : NormalNN) (preds : Preds)
    (targets : Targets) (tasks : TaskLabels) :
  (multihead s = true ->
   forall v, criterion (set_valid_out_dim s v) preds targets tasks
             = criterion s preds targets tasks)
  /\ (multihead s = false ->
      forall k pred,
        preds_get preds "All" = Ok pred ->
        Forall (fun row => Z.of_nat (List.length row) <= k) pred ->
        criterion (set_valid_out_dim s (Dim k)) preds targets tasks
        = criterion (set_valid_out_dim s ALL) preds targets tasks).
Proof.
  split.
  - intros Hm v. unfold criterion.
    cbn [multihead set_valid_out_dim]. rewrite Hm.
    destruct (preds_items preds); [|reflexivity]. cbn [res_bind].
    now rewrite criterion_tasks_valid_out_dim.
  - intros Hm k pred Hget Hwide. unfold criterion.
    cbn [multihead set_valid_out_dim valid_out_dim]. rewrite Hm.
    destruct (preds_contains preds "All"); [|reflexivity].
    rewrite Hget. cbn [res_bind].
    replace (map (slice_upto k) pred) with pred; [reflexivity|].
    rewrite <- (map_id pred) at 1. apply map_ext_Forall.
    eapply Forall_impl; [|exact Hwide]. cbn. intros row Hrow.
    unfold slice_upto. destruct (0 <=? k) eqn:E.
    + symmetry. apply firstn_all2. lia.
    + apply Z.leb_gt in E. lia.
Qed.

End CriterionMore.

(** The empty batch on the two-head agent. *)
Lemma criterion_multihead_empty_batch_example :
  criterion Example.two_head_agent (PDict Example.mixed_preds) [] []
  = Raise ZeroDivisionError.
Proof.
  exact (criterion_multihead_empty_batch
           Example.two_head_agent Example.mixed_preds eq_refl).
Defined.

(** The mixed batch with its heads in the other order. *)
Lemma criterion_multihead_order_example :
  exists loss loss',
    criterion Example.two_head_agent (PDict Example.mixed_preds)
              Example.mixed_targets Example.mixed_tasks = Ok loss
    /\ criterion Example.two_head_agent
                 (PDict [("B", Example.head_B); ("A", Example.head_A)])
                 Example.mixed_targets Example.mixed_tasks = Ok loss'
    /\ (scalar_value loss == scalar_value loss')%Q.
Proof.
  apply (criterion_multihead_order Example.two_head_agent MSELoss).
  - reflexivity.
  - reflexivity.
  - reflexivity.
  - repeat constructor.
  - simpl. lia.
  - apply perm_swap.
Defined.

(** The agent as built has no loss configured. *)
Lemma criterion_before_learning_example :
  criterion Example.agent (PDict Example.all_preds) Example.two_targets
            ["All"; "All"]
  = Raise AttributeError.
Proof.
  apply (criterion_before_learning "classification" Example.agent_config).
  - reflexivity.
  - simpl. lia.
Defined.

(** Three columns and a count of five: nothing is cut. *)
Lemma criterion_masking_void_example :
  criterion (set_valid_out_dim Example.regression_agent (Dim 5))
            (PDict Example.all_preds) Example.two_targets ["All"; "All"]
  = criterion (set_valid_out_dim Example.regression_agent ALL)
              (PDict Example.all_preds) Example.two_targets ["All"; "All"].
Proof.
  apply (proj2 (criterion_masking_void
                  Example.regression_agent (PDict Example.all_preds)
                  Example.two_targets ["All"; "All"])
               eq_refl 5 [[1; 2; 4]; [0; 1; 8]]%Q eq_refl).
  repeat constructor; simpl; lia.
Defined.

(** ** A batch of one task *)

Section SingleTaskBatch.

Context {T : Torch}.

Lemma restrict_all {A} (t : string) (tasks : TaskLabels) :
  Forall (eq t) tasks ->
  forall l : list A,
    List.length l = List.length tasks -> restrict l tasks t = l.
Proof.
  induction 1 as [|x tasks Hx _ IH]; intros l Hl.
  - destruct l; [reflexivity | discriminate].
  - destruct l as [|a l]; [discriminate|]. injection Hl as Hl.
    unfold restrict in *. cbn [combine filter snd]. subst x.
    rewrite String.eqb_refl. cbn [map fst]. f_equal. now apply IH.
Qed.

Lemma task_count_all (t : string) (tasks : TaskLabels) :
  Forall (eq t) tasks -> task_count tasks t = List.length tasks.
Proof.
  induction 1 as [|x tasks Hx _ IH]; [reflexivity|].
  unfold task_count in *. cbn [count_occ List.length]. subst x.
  destruct (string_dec t t); [now f_equal | contradiction].
Qed.

Lemma task_count_other (t t' : string) (tasks : TaskLabels) :
  Forall (eq t) tasks -> t' <> t -> task_count tasks t' = 0%nat.
Proof.
  intros Hall Hne. unfold task_count. apply count_occ_not_In.
  intros Hin. rewrite Forall_forall in Hall. apply Hall in Hin. congruence.
Qed.

Lemma weighted_task_losses_absent (fn : LossFn) (t : string)
    (items : list (string * Tensor)) (targets : Targets) (tasks : TaskLabels) :
  Forall (eq t) tasks ->
  ~ In t (map fst items) ->
  (weighted_task_losses fn items targets tasks == 0)%Q.
Proof.
  intros Hall. induction items as [|[k tp] items IH]; intros Hnot.
  - reflexivity.
  - rewrite weighted_task_losses_cons. cbn [fst snd].
    rewrite (task_count_other t k tasks Hall).
    + rewrite IH; [simpl; ring|]. intros H. apply Hnot. now right.
    + intros ->. apply Hnot. now left.
Qed.

Lemma weighted_task_losses_single (fn : LossFn) (t : string) (t_preds : Tensor)
    (items : list (string * Tensor)) (targets : Targets) (tasks : TaskLabels) :
  Forall (eq t) tasks ->
  List.length targets = List.length tasks ->
  List.length t_preds = List.length tasks ->
  NoDup (map fst items) ->
  In (t, t_preds) items ->
  (weighted_task_losses fn items targets tasks
   == loss_call fn t_preds targets * inject_Z (Z.of_nat (List.length tasks)))%Q.
Proof.
  intros Hall Htg Hp. induction items as [|[k tp] items IH]; intros Hnd Hin.
  - contradiction.
  - rewrite weighted_task_losses_cons. cbn [fst snd].
    cbn [map fst] in Hnd. apply NoDup_cons_iff in Hnd as [Hk Hnd].
    destruct Hin as [Heq|Hin].
    + injection Heq as -> ->.
      rewrite (restrict_all t tasks Hall t_preds Hp).
      rewrite (restrict_all t tasks Hall targets Htg).
      rewrite (task_count_all t tasks Hall).
      rewrite (weighted_task_losses_absent fn t items targets tasks Hall Hk).
      ring.
    + assert (Hne : k <> t).
      { intros ->. apply Hk. apply in_map_iff. now exists (t, t_preds). }
      rewrite (task_count_other t k tasks Hall Hne).
      rewrite (IH Hnd Hin). simpl. ring.
Qed.

(** X18.  When every sample of the batch belongs to one task, the
    multi-head loss is that task's base loss on the whole batch: the other
    heads add nothing, and the weighting by the sample count cancels
    against the division by the batch size. *)
Theorem criterion_single_task_batch (s : NormalNN) (fn : LossFn)
    (items : list (string * Tensor)) (targets : Targets) (tasks : TaskLabels)
    (t : string) (t_preds : Tensor) :
  multihead s = true ->
  criterion_fn s = Some fn ->
  NoDup (map fst items) ->
  In (t, t_preds) items ->
  Forall (eq t) tasks ->
  List.length targets = List.length tasks ->
  Forall (fun kv => List.length (snd kv) = List.length tasks) items ->
  (0 < List.length tasks)%nat ->
  exists loss,
    criterion s (PDict items) targets tasks = Ok loss
    /\ (scalar_value loss == loss_call fn t_preds targets)%Q.
Proof.
  intros Hm Hfn Hnd Hin Hall Htg Hlen Hn.
  assert (Hp : List.length t_preds = List.length tasks).
  { rewrite Forall_forall in Hlen. exact (Hlen (t, t_preds) Hin). }
  assert (Hne : targets <> []).
  { intros ->. simpl in Htg. lia. }
  destruct (criterion_tasks_sum s fn targets tasks items Hfn Htg Hlen (PyNum 0))
    as (l1 & E1 & V1).
  destruct (div_len_value l1 targets Hne) as (l2 & E2 & V2).
  exists l2. split.
  - unfold criterion. rewrite Hm. cbn [preds_items res_bind].
    rewrite E1. exact E2.
  - rewrite V2, V1.
    rewrite (weighted_task_losses_single fn t t_preds items targets tasks
               Hall Htg Hp Hnd Hin).
    unfold Qlen. rewrite Htg. simpl scalar_value.
    assert (Hnz : ~ (inject_Z (Z.of_nat (List.length tasks)) == 0)%Q).
    { intros H. unfold Qeq in H. simpl in H. lia. }
    field. exact Hnz.
Qed.

End SingleTaskBatch.

(** Three samples of task A scored by two heads. *)
Lemma criterion_single_task_batch_example :
  exists loss,
    criterion Example.two_head_agent
              (PDict [("A", [[1]; [2]; [3]]%Q); ("B", [[9]; [9]; [9]]%Q)])
              [0; 0; 0]%Q ["A"; "A"; "A"] = Ok loss
    /\ (scalar_value loss
        == Example.squared_error [[1]; [2]; [3]]%Q [0; 0; 0]%Q)%Q.
Proof.
  apply (criterion_single_task_batch Example.two_head_agent MSELoss
           [("A", [[1]; [2]; [3]]%Q); ("B", [[9]; [9]; [9]]%Q)]
           [0; 0; 0]%Q ["A"; "A"; "A"] "A" [[1]; [2]; [3]]%Q).
  - reflexivity.
  - reflexivity.
  - repeat constructor; simpl; intuition discriminate.
  - now left.
  - repeat constructor.
  - reflexivity.
  - repeat constructor.
  - simpl. lia.
Defined.

(** ** update_model and add_valid_output_dim *)

Section Updates.

Context {T : Torch}.




(** X8.  Two calls of [add_valid_output_dim] amount to one call with the
    sum of their counts, for every pair of integers and from every state:
    same returned value, same agent. *)
Theorem add_valid_output_dim_compose (d1 d2 : Z) (s : NormalNN) :
  bind (add_valid_output_dim d1) (fun _ => add_valid_output_dim d2) s
  = add_valid_output_dim (d1 + d2) s.
Proof.
  unfold bind. destruct (valid_out_dim s) as [|n] eqn:E.
  - rewrite (add_valid_output_dim_from_ALL s d1 E).
    rewrite (add_valid_output_dim_from_ALL s (d1 + d2) E).
    rewrite (add_valid_output_dim_from_Dim
               (set_valid_out_dim (set_valid_out_dim s (Dim 0)) (Dim d1))
               d1 d2 eq_refl).
    reflexivity.
  - rewrite (add_valid_output_dim_from_Dim s n d1 E).
    rewrite (add_valid_output_dim_from_Dim s n (d1 + d2) E).
    rewrite (add_valid_output_dim_from_Dim
               (set_valid_out_dim s (Dim (n + d1))) (n + d1) d2 eq_refl).
    rewrite Z.add_assoc. reflexivity.
Qed.

(** X9.  [init_optimizer] renames the optimizer 'amsgrad' to 'Adam' in the
    agent's configuration.  The first run builds an Adam optimizer with
    the amsgrad flag; a second run (the reset before a task) finds 'Adam'
    and builds it without the flag. *)
Theorem init_optimizer_amsgrad_once (s s1 s2 : NormalNN) :
  optimizer_name (config s) = "amsgrad" ->
  init_optimizer s = (Ok tt, s1) ->
  init_optimizer s1 = (Ok tt, s2) ->
  optimizer_name (config s1) = "Adam"
  /\ new_optimizer "Adam"
       {| arg_lr := lr (config s);
          arg_weight_decay := Some (weight_decay (config s));
          arg_momentum := None; arg_amsgrad := true |}
       (schedule (config s)) (model s)
     = Ok (optimizer s1)
  /\ new_optimizer "Adam"
       {| arg_lr := lr (config s);
          arg_weight_decay := Some (weight_decay (config s));
          arg_momentum := None; arg_amsgrad := false |}
       (schedule (config s)) (model s)
     = Ok (optimizer s2).
Proof.
  intros Hname H1 H2.
  unfold init_optimizer, optimizer_arg in H1.
  unfold bind, get, modify, lift in H1. cbn beta iota in H1.
  rewrite Hname in H1. cbn in H1.
  match type of H1 with
  | context [new_optimizer ?n ?a ?m ?net] =>
      destruct (new_optimizer n a m net) as [o1|e] eqn:E1; [|discriminate]
  end.
  injection H1 as <-.
  unfold init_optimizer, optimizer_arg in H2.
  unfold bind, get, modify, lift in H2. cbn in H2.
  match type of H2 with
  | context [new_optimizer ?n ?a ?m ?net] =>
      destruct (new_optimizer n a m net) as [o2|e] eqn:E2; [|discriminate]
  end.
  injection H2 as <-.
  repeat split.
Qed.

End Updates.


(** The reset of an agent configured with 'amsgrad'. *)
Lemma init_optimizer_amsgrad_once_example :
  let s1 := snd (init_optimizer Example.amsgrad_agent) in
  let s2 := snd (init_optimizer s1) in
  optimizer_name (config Example.amsgrad_agent) = "amsgrad"
  /\ optimizer_name (config s1) = "Adam"
  /\ optimizer_name (config s2) = "Adam".
Proof.
  intros s1 s2.
  destruct (init_optimizer_amsgrad_once Example.amsgrad_agent s1 s2
              eq_refl eq_refl eq_refl) as (H1 & _ & _).
  split; [reflexivity|]. split; [exact H1 | reflexivity].
Defined.

(** ** More on validation and learn_batch *)

Section LoopsMore.

Context {T : Torch}.

(** X10.  [validation] evaluates in evaluation mode whatever mode the
    wrapped network was in: for a task name of the table, the result and
    the agent afterwards do not depend on [self.model.training] of
    before. *)
Theorem validation_ignores_model_mode (val_name : string)
    (dataloader : list Batch) (s : NormalNN) (b : bool) (mode : string) :
  dict_get output_modes val_name = Ok mode ->
  validation val_name dataloader (set_model_training s b)
  = validation val_name dataloader s.
Proof.
  intros Hmode. unfold validation, bind, modify, get, lift.
  rewrite Hmode.
  destruct (metric_branch val_name mode) as [[| |]|]; reflexivity.
Qed.

(** X11.  [validation] returns a value only when [args.output_mode] picks
    the meter that the task's own output mode created: it returns None
    when [args.output_mode] is neither mode (and the task is not 'cola'),
    a number when both pick the same meter, and does not return (the
    meter's name is unbound) when they differ. *)
Theorem validation_result (val_name : string) (dataloader : list Batch)
    (s : NormalNN) (r : option Q) (s' : NormalNN) :
  validation val_name dataloader s = (Ok r, s') ->
  exists mode,
    dict_get output_modes val_name = Ok mode
    /\ match metric_branch val_name (args_output_mode s) with
       | None => r = None
       | Some m =>
           metric_branch val_name mode = Some m /\ exists q, r = Some q
       end.
Proof.
  intros H. unfold validation in H.
  unfold bind, modify, get, lift, ret, raise in H.
  cbn beta iota in H.
  destruct (dict_get output_modes val_name) as [mode|e] eqn:Emode;
    [|discriminate].
  exists mode. split; [reflexivity|].
  destruct (metric_branch val_name mode) as [[| |]|] eqn:Ecreated;
    cbn beta iota in H.
  all: match type of H with
       | context [foldM (validation_batch ?c) ?l ?m ?s0] =>
           pose proof (validation_loop_keeps_pass c l m s0) as Hk;
           destruct (foldM (validation_batch c) l m s0) as [[meter|e] s4];
           [|discriminate]
       end.
  all: destruct Hk as ((_ & Ha & _) & _); cbn in Ha, H; rewrite Ha in H.
  all: destruct (metric_branch val_name (args_output_mode s)) as [[| |]|];
    cbn in H; try discriminate.
  all: try (destruct (AverageMeter.avg meter) as [q|e]; [|discriminate]).
  all: injection H as <- _.
  all: try reflexivity.
  all: split; [reflexivity | now eexists].
Qed.

Lemma dict_get_raises {V} (d : list (string * V)) (key : string) (e : exn) :
  dict_get d key = Raise e -> e = KeyError.
Proof.
  induction d as [|[k v] d IH]; simpl; intros H.
  - now injection H.
  - destruct (String.eqb k key); [discriminate | now apply IH].
Qed.

Lemma py_range_nonpositive (n : Z) : n <= 0 -> py_range n = [].
Proof.
  intros H. unfold py_range.
  replace (Z.to_nat n) with 0%nat by lia. reflexivity.
Qed.

Lemma getitem_last_nil {A} (l : list A) :
  l = [] -> getitem_last l = Raise IndexError.
Proof. now intros ->. Qed.

(** X12.  What [learn_batch] does without training, on an agent that is
    not due an optimizer reset.  For a task name missing from the table it
    raises KeyError and leaves the agent as it was.  For a known task it
    assigns the loss of the output mode first; an empty schedule then
    raises IndexError, and a last milestone of zero or less returns at
    once: no epoch, no scheduler step, no validation. *)
Theorem learn_batch_without_epochs (name : string) (train_loader : list Batch)
    (val_loader : option (list Batch)) (s : NormalNN) :
  reset_optimizer s = false ->
  (forall e, dict_get output_modes name = Raise e ->
     learn_batch name train_loader val_loader s = (Raise KeyError, s))
  /\ (forall mode, dict_get output_modes name = Ok mode ->
        (schedule (config s) = [] ->
         learn_batch name train_loader val_loader s
         = (Raise IndexError, with_loss_of mode s))
        /\ (forall last,
              getitem_last (schedule (config s)) = Ok last -> last <= 0 ->
              learn_batch name train_loader val_loader s
              = (Ok tt, with_loss_of mode s))).
Proof.
  intros Hreset. split.
  - intros e He. rewrite (dict_get_raises _ _ _ He) in He.
    unfold learn_batch, bind, get, lift, ret.
    now rewrite Hreset, He.
  - intros mode Hmode.
    assert (Hcfg : config (with_loss_of mode s) = config s).
    { unfold with_loss_of.
      destruct (String.eqb mode "classification");
        [|destruct (String.eqb mode "regression")]; reflexivity. }
    assert (Hrun : forall k : NormalNN -> M unit,
               bind (if String.eqb mode "classification"
                     then modify (fun s => set_criterion_fn s CrossEntropyLoss)
                     else if String.eqb mode "regression"
                          then modify (fun s => set_criterion_fn s MSELoss)
                          else ret tt)
                    (fun _ => bind get k) s
               = k (with_loss_of mode s) (with_loss_of mode s)).
    { intros k. unfold with_loss_of, bind, modify, get, ret.
      destruct (String.eqb mode "classification");
        [|destruct (String.eqb mode "regression")]; reflexivity. }
    split.
    + intros Hnil. unfold learn_batch.
      unfold bind at 1. unfold get at 1. cbn beta iota.
      rewrite Hreset. unfold bind at 1. unfold ret at 1. cbn beta iota.
      unfold bind at 1. unfold lift at 1. rewrite Hmode. cbn beta iota.
      rewrite Hrun. rewrite Hcfg, Hnil. reflexivity.
    + intros last Hlast Hle. unfold learn_batch.
      unfold bind at 1. unfold get at 1. cbn beta iota.
      rewrite Hreset. unfold bind at 1. unfold ret at 1. cbn beta iota.
      unfold bind at 1. unfold lift at 1. rewrite Hmode. cbn beta iota.
      rewrite Hrun. rewrite Hcfg, Hlast.
      unfold bind, lift. cbn beta iota.
      now rewrite (py_range_nonpositive last Hle).
Qed.

Lemma count_calls_app (p : Event -> bool) (l1 l2 : list Event) :
  count_calls p (l1 ++ l2) = (count_calls p l1 + count_calls p l2)%nat.
Proof. unfold count_calls. now rewrite filter_app, length_app. Qed.

Lemma epoch_calls_optimizer_steps name n validates (epochs : list Z) :
  count_calls is_optimizer_step (flat_map (epoch_calls name n validates) epochs)
  = (List.length epochs * n)%nat.
Proof.
  induction epochs as [|e epochs IH]; [reflexivity|].
  cbn [flat_map List.length]. rewrite count_calls_app, IH.
  unfold epoch_calls. rewrite !count_calls_app.
  assert (Hrep : count_calls is_optimizer_step (repeat EvOptimizerStep n) = n).
  { unfold count_calls. clear. induction n as [|n IH]; [reflexivity|].
    cbn. now rewrite IH. }
  rewrite Hrep. destruct validates; cbn; lia.
Qed.

(** X13.  A [learn_batch] that returns has taken exactly
    last_milestone * len(train_loader) optimizer steps: one per batch of
    every epoch, none in validation or in the optimizer reset. *)
Theorem learn_batch_optimizer_steps (name : string) (train_loader : list Batch)
    (val_loader : option (list Batch)) (s s' : NormalNN) (last_milestone : Z) :
  getitem_last (schedule (config s)) = Ok last_milestone ->
  learn_batch name train_loader val_loader s = (Ok tt, s') ->
  count_calls is_optimizer_step (calls s')
  = (count_calls is_optimizer_step (calls s)
     + Z.to_nat last_milestone * List.length train_loader)%nat.
Proof.
  intros Hlast H.
  rewrite (learn_batch_returns name train_loader val_loader s tt s'
             last_milestone Hlast H).
  rewrite !count_calls_app, epoch_calls_optimizer_steps, py_range_length.
  destruct (reset_optimizer s); cbn; lia.
Qed.

(** X14.  With the GPU disabled a batch whose input is a list of tensors
    never completes a training step: the list is not repackaged, and
    when the forward pass and the loss do go through, the optimizer step is
    taken and [input.detach()] then raises AttributeError. *)
Theorem learn_batch_step_list_input (created : option Metric) (n : nat)
    (meters : Meters) (i : Z) (xs : list XTensor) (target : Targets)
    (task : TaskLabels) (s : NormalNN) :
  gpu s = false ->
  (exists e s',
     learn_batch_step created n meters (i, (InList xs, target, task)) s
     = (Raise e, s'))
  /\ (forall lo s1,
        update_model (InList xs) target task s = (Ok lo, s1) ->
        learn_batch_step created n meters (i, (InList xs, target, task)) s
        = (Raise AttributeError, s1)
        /\ calls s1 = calls s ++ [EvOptimizerStep]).
Proof.
  intros Hgpu. destruct meters as [losses meter].
  assert (Hstep : learn_batch_step created n (losses, meter)
                    (i, (InList xs, target, task)) s
                  = match update_model (InList xs) target task s with
                    | (Ok _, s1) => (Raise AttributeError, s1)
                    | (Raise e, s1) => (Raise e, s1)
                    end).
  { unfold learn_batch_step, bind, get, ret, raise. rewrite Hgpu.
    destruct (update_model (InList xs) target task s) as [[[loss out]|e] s1];
      reflexivity. }
  rewrite Hstep. split.
  - destruct (update_model (InList xs) target task s) as [[lo|e] s1];
      eauto.
  - intros lo s1 Hupd. rewrite Hupd. split; [reflexivity|].
    exact (update_model_returns _ _ _ _ _ _ Hupd).
Qed.

End LoopsMore.

(** The pass of before, started with the network in evaluation mode. *)
Lemma validation_ignores_model_mode_example :
  validation "mrpc" Example.loader
             (set_model_training Example.regression_agent false)
  = validation "mrpc" Example.loader Example.regression_agent.
Proof.
  exact (validation_ignores_model_mode
           "mrpc" Example.loader Example.regression_agent false
           "classification" eq_refl).
Defined.

(** A classification task validated by an agent of a classification run. *)
Lemma validation_result_example :
  exists mode,
    dict_get Example.glue_output_modes "mrpc" = Ok mode
    /\ metric_branch "mrpc" mode = Some Acc.
Proof.
  assert (F : fst (validation "mrpc" Example.loader Example.regression_agent)
              = Ok (Some (4 # 6)%Q))
    by (vm_compute; reflexivity).
  pose proof (surjective_pairing
                (validation "mrpc" Example.loader Example.regression_agent))
    as E.
  rewrite F in E.
  destruct (validation_result _ _ _ _ _ E) as (mode & Hmode & Hbranch).
  exists mode. split; [exact Hmode | exact (proj1 Hbranch)].
Defined.

(** A regression task validated by that agent: the pass runs, and the
    summary then asks for a meter that was never bound. *)
Lemma validation_unbound_meter :
  fst (validation "sts-b" Example.loader Example.regression_agent)
  = Raise NameError.
Proof. vm_compute. reflexivity. Qed.

(** A task name that the table does not have. *)
Lemma learn_batch_without_epochs_example :
  learn_batch "imdb" Example.loader None Example.agent
  = (Raise KeyError, Example.agent).
Proof.
  exact (proj1 (learn_batch_without_epochs
                  "imdb" Example.loader None Example.agent eq_refl)
               KeyError eq_refl).
Defined.

(** One epoch over two batches: two optimizer steps. *)
Lemma learn_batch_optimizer_steps_example :
  count_calls is_optimizer_step
    (calls (snd (learn_batch "mrpc" Example.loader (Some Example.loader)
                             Example.agent)))
  = 2%nat.
Proof.
  assert (F : fst (learn_batch "mrpc" Example.loader (Some Example.loader)
                               Example.agent)
              = Ok tt)
    by (vm_compute; reflexivity).
  pose proof (surjective_pairing
                (learn_batch "mrpc" Example.loader (Some Example.loader)
                             Example.agent))
    as E.
  rewrite F in E.
  exact (learn_batch_optimizer_steps
           "mrpc" Example.loader (Some Example.loader) Example.agent _ 1
           eq_refl E).
Defined.

(** A list input on the agent without GPU. *)
Lemma learn_batch_step_list_input_example :
  exists e s',
    learn_batch_step (Some Acc) 1
      (AverageMeter.reset, AverageMeter.reset)
      (0, Example.list_batch) Example.regression_agent
    = (Raise e, s').
Proof.
  exact (proj1 (learn_batch_step_list_input (T := Example.torch)
                  (Some Acc) 1 (AverageMeter.reset, AverageMeter.reset) 0
                  [[[1; 0]]; [[1; 1]]; [[0; 0]]]%Q [1]%Q ["All"]
                  Example.regression_agent eq_refl)).
Defined.

(** ** Settings that no method changes *)

Section SettingsFacts.

Context {T : Torch}.

Lemma same_settings_refl s : same_settings s s.
Proof. repeat split. Qed.

Lemma same_settings_trans s1 s2 s3 :
  same_settings s1 s2 -> same_settings s2 s3 -> same_settings s1 s3.
Proof.
  unfold same_settings. intros H1 H2.
  decompose [and] H1. decompose [and] H2. repeat split; congruence.
Qed.

#[local] Hint Resolve same_settings_refl same_settings_trans : frames.

Lemma optimizer_arg_settings (c : Config) :
  let c' := fst (optimizer_arg c) in
  schedule c' = schedule c
  /\ print_freq c' = print_freq c
  /\ out_dim c' = out_dim c
  /\ lr c' = lr c
  /\ momentum c' = momentum c
  /\ weight_decay c' = weight_decay c.
Proof.
  unfold optimizer_arg.
  repeat match goal with
         | |- context [if ?b then _ else _] => destruct b
         end; repeat split.
Qed.

Lemma init_optimizer_keeps_settings : keeps same_settings init_optimizer.
Proof.
  intros s. unfold init_optimizer, bind, get, modify, lift.
  pose proof (optimizer_arg_settings (config s)) as Hc.
  destruct (optimizer_arg (config s)) as [c arg]. cbn [fst] in Hc.
  destruct (new_optimizer (optimizer_name c) arg (schedule c) (model s));
    cbn; unfold same_settings; cbn; tauto.
Qed.

Lemma predict_keeps_settings inputs : keeps same_settings (predict inputs).
Proof. unfold predict. keeps_tac. Qed.

Lemma update_model_keeps_settings inputs targets tasks :
  keeps same_settings (update_model inputs targets tasks).
Proof. unfold update_model. keeps_tac. Qed.

#[local] Hint Resolve init_optimizer_keeps_settings predict_keeps_settings
  update_model_keeps_settings : frames.

Lemma validation_batch_keeps_settings created meter batch :
  keeps same_settings (validation_batch created meter batch).
Proof. unfold validation_batch. keeps_tac. Qed.

#[local] Hint Resolve validation_batch_keeps_settings : frames.

Lemma validation_keeps_settings val_name dataloader :
  keeps same_settings (validation val_name dataloader).
Proof. unfold validation. keeps_tac. Qed.

#[local] Hint Resolve validation_keeps_settings : frames.

Lemma learn_batch_step_keeps_settings created n meters ib :
  keeps same_settings (learn_batch_step created n meters ib).
Proof. unfold learn_batch_step. keeps_tac. Qed.

#[local] Hint Resolve learn_batch_step_keeps_settings : frames.

Lemma learn_epoch_keeps_settings name mode train_loader val_loader epoch :
  keeps same_settings (learn_epoch name mode train_loader val_loader epoch).
Proof. unfold learn_epoch. keeps_tac. Qed.

#[local] Hint Resolve learn_epoch_keeps_settings : frames.

Lemma learn_batch_keeps_settings name train_loader val_loader :
  keeps same_settings (learn_batch name train_loader val_loader).
Proof. unfold learn_batch. keeps_tac. Qed.

Lemma run_call_keeps_settings (c : Call) (s : NormalNN) :
  keeps_dim c -> same_settings s (run_call c s).
Proof.
  destruct c; cbn [run_call keeps_dim]; intros H.
  - contradiction.
  - apply init_optimizer_keeps_settings.
  - apply predict_keeps_settings.
  - apply validation_keeps_settings.
  - apply update_model_keeps_settings.
  - apply learn_batch_keeps_settings.
  - apply same_settings_refl.
Qed.

(** X19.  Whatever is called on an agent besides [add_valid_output_dim],
    and whether the calls return or raise, these stay as they were: the
    multihead and gpu flags, [args.output_mode], [valid_out_dim], the
    schedule, print frequency, head widths and optimizer hyperparameters
    of the configuration, and [reset_optimizer], which no method ever
    clears or sets. *)
Theorem settings_are_kept (cs : list Call) (s : NormalNN) :
  Forall keeps_dim cs -> same_settings s (run_calls cs s).
Proof.
  intros H. revert s.
  induction H as [|c cs Hc _ IH]; intros s.
  - apply same_settings_refl.
  - cbn [run_calls fold_left].
    eapply same_settings_trans; [apply (run_call_keeps_settings c s Hc)|].
    apply IH.
Qed.

End SettingsFacts.

(** Training and validating leave the settings of the agent alone. *)
Lemma settings_are_kept_example :
  same_settings Example.agent
    (run_calls [CallLearnBatch "mrpc" Example.loader (Some Example.loader);
                CallValidation "sts-b" Example.loader;
                CallLearnStream [] []]
               Example.agent).
Proof.
  apply settings_are_kept. repeat constructor.
Defined.

(** ** Heads built by create_model *)

Section HeadsFacts.

Context {T : Torch}.

Lemma dict_set_fresh {V} (d : list (string * V)) (key : string) (v : V) :
  ~ In key (map fst d) -> dict_set d key v = d ++ [(key, v)].
Proof.
  induction d as [|[k x] d IH]; intros H; [reflexivity|].
  cbn [dict_set]. destruct (String.eqb_spec k key) as [->|Hne].
  - exfalso. apply H. now left.
  - cbn [app]. f_equal. apply IH. intros Hin. apply H. now right.
Qed.

(** Assigning the entries of a dict with distinct keys to another dict
    that has none of them appends them in order. *)
Lemma fold_dict_set {A V} (g : string * A -> V) (l : list (string * A)) :
  NoDup (map fst l) ->
  forall acc : list (string * V),
    (forall k, In k (map fst l) -> ~ In k (map fst acc)) ->
    fold_left (fun acc kv => dict_set acc (fst kv) (g kv)) l acc
    = acc ++ map (fun kv => (fst kv, g kv)) l.
Proof.
  induction l as [|[k a] l IH]; intros Hnd acc Hfresh.
  - cbn. now rewrite app_nil_r.
  - cbn [map fst] in Hnd. apply NoDup_cons_iff in Hnd as [Hk Hnd].
    cbn [fold_left fst map].
    rewrite (dict_set_fresh acc k (g (k, a))).
    + rewrite IH; [now rewrite <- app_assoc | exact Hnd |].
      intros k' Hk'. rewrite map_app, in_app_iff. cbn.
      intros [Hin|[<-|[]]].
      * apply (Hfresh k'); [now right | exact Hin].
      * contradiction.
    + apply Hfresh. now left.
Qed.

Lemma create_heads_map {Head} (linear : string -> Z -> Z -> Head)
    (n_feat : Z) (out_dim : list (string * Z)) :
  NoDup (map fst out_dim) ->
  create_heads Head linear n_feat out_dim
  = map (fun kv => (fst kv, linear (fst kv) n_feat (snd kv))) out_dim.
Proof.
  intros Hnd. unfold create_heads.
  rewrite (fold_dict_set (fun kv => linear (fst kv) n_feat (snd kv))
             out_dim Hnd []); [reflexivity|].
  intros k _ [].
Qed.

(** X16.  For a configuration of distinct task names, the logits of the
    model that [create_model] builds are a dict with exactly the
    configured tasks as keys, in the order of the configuration, each
    holding the output of the head created for that task. *)
Theorem new_logits_of_created_heads {Head Feat}
    (linear : string -> Z -> Z -> Head) (head_call : Head -> Feat -> Tensor)
    (n_feat : Z) (out_dim : list (string * Z)) (x : Feat) :
  NoDup (map fst out_dim) ->
  new_logits Head Feat head_call (create_heads Head linear n_feat out_dim) x
  = map (fun kv => (fst kv, head_call (linear (fst kv) n_feat (snd kv)) x))
        out_dim
  /\ map fst (new_logits Head Feat head_call
                (create_heads Head linear n_feat out_dim) x)
     = map fst out_dim.
Proof.
  intros Hnd.
  assert (E : new_logits Head Feat head_call
                (create_heads Head linear n_feat out_dim) x
              = map (fun kv => (fst kv,
                                head_call (linear (fst kv) n_feat (snd kv)) x))
                    out_dim).
  { rewrite (create_heads_map linear n_feat out_dim Hnd). unfold new_logits.
    rewrite (fold_dict_set (fun kv => head_call (snd kv) x)); cbn [app].
    - rewrite map_map. reflexivity.
    - rewrite map_map. cbn [fst]. exact Hnd.
    - intros k _ []. }
  split; [exact E|].
  rewrite E, map_map. reflexivity.
Qed.

Lemma dict_has_single {V} (t key : string) (v : V) :
  t <> key -> dict_has [(t, v)] key = false.
Proof.
  intros H. unfold dict_has. cbn.
  destruct (String.eqb_spec t key); [contradiction | reflexivity].
Qed.

(** X17.  An agent configured with a single task that is not called "All"
    is single-head, but its network's output has no key "All": once a loss
    is configured, [criterion] takes the fallback [preds[1]] on a dict
    and raises KeyError for every batch. *)
Theorem criterion_single_task_not_all {Head Feat}
    (linear : string -> Z -> Z -> Head) (head_call : Head -> Feat -> Tensor)
    (n_feat : Z) (x : Feat) (mode : string) (cfg : Config) (s : NormalNN)
    (t : string) (d : Z) (fn : LossFn) (targets : Targets)
    (tasks : TaskLabels) :
  NormalNN_init mode cfg = Ok s ->
  out_dim cfg = [(t, d)] ->
  t <> "All" ->
  criterion (set_criterion_fn s fn)
            (PDict (new_logits Head Feat head_call
                      (create_heads Head linear n_feat (out_dim cfg)) x))
            targets tasks
  = Raise KeyError.
Proof.
  intros Hinit Hout Hne.
  destruct (NormalNN_init_fresh mode cfg s Hinit) as (_ & Hm & _).
  rewrite Hout in *. cbn in Hm.
  unfold criterion. cbn [multihead set_criterion_fn]. rewrite Hm.
  cbn [preds_contains new_logits create_heads fold_left dict_set fst snd].
  rewrite (dict_has_single t "All" _ Hne). reflexivity.
Qed.

End HeadsFacts.

(** The logits of a model with heads for two tasks. *)
Lemma new_logits_of_created_heads_example :
  map fst (new_logits (Z * Z) Tensor (fun _ x => x)
             (create_heads (Z * Z) (fun _ n d => (n, d)) 100
                           [("mnli", 3); ("sst-2", 2)])
             [[1]]%Q)
  = ["mnli"; "sst-2"].
Proof.
  refine (proj2 (new_logits_of_created_heads
                   (fun _ n d => (n, d)) (fun _ x => x) 100
                   [("mnli", 3); ("sst-2", 2)] [[1]]%Q _)).
  repeat constructor; simpl; intuition discriminate.
Defined.

(** The agent of a configuration whose only task is "sst-2". *)
Lemma criterion_single_task_not_all_example :
  exists s,
    NormalNN_init (T := Example.torch) "classification"
                  Example.one_task_config = Ok s
    /\ criterion (set_criterion_fn s CrossEntropyLoss)
                 (PDict (new_logits (Z * Z) Tensor (fun _ x => x)
                           (create_heads (Z * Z) (fun _ n d => (n, d)) 100
                                         (out_dim Example.one_task_config))
                           [[1; 0]]%Q))
                 [1]%Q ["sst-2"]
       = Raise KeyError.
Proof.
  eexists. split; [reflexivity|].
  apply (criterion_single_task_not_all (T := Example.torch)
           (fun _ n d => (n, d)) (fun _ x => x) 100 [[1; 0]]%Q
           "classification" Example.one_task_config _ "sst-2" 2).
  - reflexivity.
  - reflexivity.
  - discriminate.
Defined.

(** ** How many samples a metric pass counts *)

Section AccumulateCounts.

Context {T : Torch}.

Lemma list_sum_cons (a : nat) (l : list nat) :
  list_sum (a :: l) = (a + list_sum l)%nat.
Proof. reflexivity. Qed.

Lemma accumulate_task_count (metric : Tensor -> Targets -> Q)
    (target : Targets) (task : TaskLabels) (meter : AverageMeter.t)
    (t : string) (t_out : Tensor) :
  List.length target = List.length task ->
  List.length t_out = List.length task ->
  exists meter',
    accumulate_task metric target task meter (t, t_out) = Ok meter'
    /\ (AverageMeter.count meter'
        == AverageMeter.count meter
           + inject_Z (Z.of_nat (task_count task t)))%Q.
Proof.
  intros Htg Hout. unfold accumulate_task.
  rewrite (task_inds_select t_out task t Hout).
  rewrite (task_inds_select target task t Htg).
  unfold Qlen. rewrite task_inds_length.
  destruct (0 <? task_count task t)%nat eqn:E.
  - eexists; split; [reflexivity|]. cbn. reflexivity.
  - apply Nat.ltb_ge in E.
    assert (E0 : task_count task t = 0%nat) by lia.
    exists meter; split; [reflexivity|]. rewrite E0. cbn. ring.
Qed.

Lemma accumulate_tasks_count (metric : Tensor -> Targets -> Q)
    (target : Targets) (task : TaskLabels) (items : list (string * Tensor)) :
  List.length target = List.length task ->
  Forall (fun kv => List.length (snd kv) = List.length task) items ->
  forall meter,
  exists meter',
    accumulate_tasks metric target task meter items = Ok meter'
    /\ (AverageMeter.count meter'
        == AverageMeter.count meter
           + inject_Z (Z.of_nat
               (list_sum (map (fun kv => task_count task (fst kv)) items))))%Q.
Proof.
  intros Htg Hall.
  induction Hall as [|[t t_out] items Hout _ IH]; intros meter.
  - exists meter; split; [reflexivity|]. cbn. ring.
  - destruct (accumulate_task_count metric target task meter t t_out Htg Hout)
      as (m1 & E1 & V1).
    destruct (IH m1) as (m2 & E2 & V2).
    exists m2. split.
    + cbn [accumulate_tasks].
      change (accumulate_task metric target task meter (t, t_out))
        with (accumulate_task metric target task meter (t, t_out : Tensor)).
      rewrite E1. exact E2.
    + rewrite V2, V1. cbn [map fst].
      rewrite list_sum_cons, Nat2Z.inj_add, inject_Z_plus. ring.
Qed.

Lemma indicator_sum (x : string) (keys : list string) :
  NoDup keys ->
  list_sum (map (fun k => if string_dec x k then 1%nat else 0%nat) keys)
  = if str_in x keys then 1%nat else 0%nat.
Proof.
  induction 1 as [|k keys Hk _ IH]; [reflexivity|].
  cbn [map]. rewrite list_sum_cons.
  unfold str_in in *. cbn [existsb].
  destruct (string_dec x k) as [->|Hne].
  - rewrite String.eqb_refl. cbn [orb].
    rewrite IH.
    destruct (existsb (String.eqb k) keys) eqn:E; [|reflexivity].
    exfalso. apply Hk. apply existsb_exists in E as (y & Hy & Heq).
    apply String.eqb_eq in Heq. now subst.
  - destruct (String.eqb_spec x k); [contradiction|]. cbn [orb]. exact IH.
Qed.

Lemma task_counts_routed (keys : list string) (tasks : TaskLabels) :
  NoDup keys ->
  list_sum (map (task_count tasks) keys) = routed keys tasks.
Proof.
  intros Hnd. induction tasks as [|x tasks IH].
  - unfold routed, task_count. cbn.
    induction keys as [|k keys IHk]; [reflexivity|].
    cbn. apply IHk. now apply NoDup_cons_iff in Hnd.
  - unfold routed in *. cbn [filter].
    assert (Hsplit : list_sum (map (task_count (x :: tasks)) keys)
                     = (list_sum (map (fun k => if string_dec x k
                                                then 1%nat else 0%nat) keys)
                        + list_sum (map (task_count tasks) keys))%nat).
    { clear. induction keys as [|k keys IHk]; [reflexivity|].
      cbn [map]. rewrite !list_sum_cons.
      rewrite IHk. unfold task_count. cbn [count_occ].
      destruct (string_dec x k); lia. }
    rewrite Hsplit, IH, (indicator_sum x keys Hnd).
    destruct (str_in x keys); reflexivity.
Qed.

(** X15.  On the output of a multi-head model (distinct task keys, none
    of them "All") each accumulation helper counts a sample once if its
    label names a head and not at all otherwise: the meter's count grows
    by the number of samples whose label is a key of the output. *)
Theorem accumulate_counts_routed_samples (metric : Tensor -> Targets -> Q)
    (items : list (string * Tensor)) (target : Targets) (task : TaskLabels)
    (meter : AverageMeter.t) :
  dict_has items "All" = false ->
  NoDup (map fst items) ->
  List.length target = List.length task ->
  Forall (fun kv => List.length (snd kv) = List.length task) items ->
  exists meter',
    accumulate metric (PDict items) target task meter = Ok meter'
    /\ (AverageMeter.count meter'
        == AverageMeter.count meter
           + inject_Z (Z.of_nat (routed (map fst items) task)))%Q.
Proof.
  intros Hall Hnd Htg Hlen.
  destruct (accumulate_tasks_count metric target task items Htg Hlen meter)
    as (m & E & V).
  exists m. split.
  - unfold accumulate. now rewrite Hall.
  - rewrite V. rewrite <- (task_counts_routed (map fst items) task Hnd).
    now rewrite map_map.
Qed.

End AccumulateCounts.

(** The mixed batch: all eight samples belong to head A or B. *)
Lemma accumulate_counts_routed_samples_example :
  exists meter',
    accumulate_acc (T := Example.torch) (PDict Example.mixed_preds)
                   Example.mixed_targets Example.mixed_tasks
                   AverageMeter.reset
    = Ok meter'
    /\ (AverageMeter.count meter' == 8)%Q.
Proof.
  destruct (accumulate_counts_routed_samples
              Example.hit_rate Example.mixed_preds Example.mixed_targets
              Example.mixed_tasks AverageMeter.reset)
    as (m & E & V).
  - reflexivity.
  - repeat constructor; simpl; intuition discriminate.
  - reflexivity.
  - repeat constructor.
  - exists m. split; [exact E|]. rewrite V. vm_compute. reflexivity.
Defined.
